(** * QC Management System front end: session store, gateway and CRUD controllers

    A shallow embedding of the React client under [frontend/src]:
    [context/AuthContext.js], [services/api.js], the entity screens
    ([Companies], [Products], [ClassCounts], [Steps]), the image manager
    with its capture widget, and the Label Studio project creator.

    JavaScript values are modelled by the shapes the code gives them:
    identifiers and step numbers as [Z], form fields as [JsVal] (a field holds
    the empty string, a parsed number or NaN), text as [string] read as a
    sequence of code units below 256, objects as records, absent or null
    fields as [option].  Asynchronous handlers that only await in sequence
    are state-passing functions over a [World] (backend, request log, durable
    storage, saved files); the project creator, whose guards exist because of
    interleaving, is a small-step machine over events. *)

From Stdlib Require Import ZArith QArith Lia List Ascii String Bool.
From stdpp Require Import base option list strings gmap pretty.

Local Open Scope Z_scope.

(* ===================================================================== *)
(** ** JavaScript primitives used by the client                          *)
(* ===================================================================== *)

Module Js.

(** The double quote character, for messages that embed quoted names. *)
Definition dquote : ascii := ascii_of_nat 34.

(** Values a form field or a handler argument can hold. *)
Inductive JsVal :=
| VStr (s : string)
| VNum (z : Z)
| VNaN
| VNull.

(** [!!v]: the empty string, 0, NaN and null are falsy. *)
Definition truthy (v : JsVal) : bool :=
  match v with
  | VStr s => negb (String.eqb s "")
  | VNum z => negb (z =? 0)
  | VNaN => false
  | VNull => false
  end.

Definition str_truthy (s : string) : bool := negb (String.eqb s "").

(** [a === b] on values. NaN is equal to nothing, itself included. *)
Definition strict_eq (a b : JsVal) : bool :=
  match a, b with
  | VStr s, VStr t => String.eqb s t
  | VNum x, VNum y => x =? y
  | VNull, VNull => true
  | _, _ => false
  end.

(** [o || d] where [o] is a possibly undefined string. *)
Definition or_default (o : option string) (d : string) : string :=
  match o with
  | Some s => if str_truthy s then s else d
  | None => d
  end.

(** White space as [String.prototype.trim] sees it, among code units < 256:
    TAB, LF, VT, FF, CR, SPACE and NBSP. *)
Definition is_space (c : ascii) : bool :=
  let n := nat_of_ascii c in
  (Nat.leb 9 n && Nat.leb n 13) || Nat.eqb n 32 || Nat.eqb n 160.

Fixpoint trimStart (s : string) : string :=
  match s with
  | EmptyString => EmptyString
  | String c s' => if is_space c then trimStart s' else s
  end.

Fixpoint trimEnd (s : string) : string :=
  match s with
  | EmptyString => EmptyString
  | String c s' =>
      match trimEnd s' with
      | EmptyString => if is_space c then EmptyString else String c EmptyString
      | t => String c t
      end
  end.

Definition trim (s : string) : string := trimEnd (trimStart s).

(** [String.prototype.toLowerCase] on code units < 256: A-Z and the Latin-1
    capitals (all of 192..222 but the multiplication sign 215) move by 32. *)
Definition lower_char (c : ascii) : ascii :=
  let n := nat_of_ascii c in
  if (Nat.leb 65 n && Nat.leb n 90)
     || (Nat.leb 192 n && Nat.leb n 222 && negb (Nat.eqb n 215))
  then ascii_of_nat (n + 32) else c.

Fixpoint toLowerCase (s : string) : string :=
  match s with
  | EmptyString => EmptyString
  | String c s' => String (lower_char c) (toLowerCase s')
  end.

(** [s.includes(sub)] *)
Fixpoint includes (s sub : string) : bool :=
  String.prefix sub s ||
  match s with
  | EmptyString => false
  | String _ s' => includes s' sub
  end.

(** Digits of [parseInt]. *)
Definition digit_of (radix : Z) (c : ascii) : option Z :=
  let n := Z.of_nat (nat_of_ascii c) in
  let d :=
    if (48 <=? n) && (n <=? 57) then Some (n - 48)
    else if (97 <=? n) && (n <=? 122) then Some (n - 87)
    else if (65 <=? n) && (n <=? 90) then Some (n - 55)
    else None in
  match d with
  | Some v => if v <? radix then Some v else None
  | None => None
  end.

Fixpoint digits (radix : Z) (s : string) (acc : option Z) : option Z :=
  match s with
  | EmptyString => acc
  | String c s' =>
      match digit_of radix c with
      | Some d => digits radix s' (Some (match acc with Some a => a * radix + d | None => d end))
      | None => acc
      end
  end.

Definition strip_hex (s : string) : option string :=
  match s with
  | String c0 (String c1 rest) =>
      if Ascii.eqb c0 "0" && (Ascii.eqb c1 "x" || Ascii.eqb c1 "X") then Some rest else None
  | _ => None
  end.

(** The two ways the client calls [parseInt]: with one argument, or with
    radix 10. *)
Inductive Radix := RadixDefault | Radix10.

(** [parseInt(s)] and [parseInt(s, 10)] on a string: leading white space, an
    optional sign, then the longest run of digits; the one-argument call
    reads a 0x prefix as hexadecimal. The result is exact (no rounding of
    long digit runs to a double). *)
Definition parseInt_string (s : string) (radix : Radix) : JsVal :=
  let t := trimStart s in
  let '(neg, t) :=
    match t with
    | String c t' =>
        if Ascii.eqb c "-" then (true, t')
        else if Ascii.eqb c "+" then (false, t') else (false, t)
    | EmptyString => (false, t)
    end in
  let '(r, t) :=
    match radix with
    | Radix10 => (10, t)
    | RadixDefault => match strip_hex t with Some t' => (16, t') | None => (10, t) end
    end in
  match digits r t None with
  | Some v => VNum (if neg then - v else v)
  | None => VNaN
  end.

(** [parseInt(v)] and [parseInt(v, 10)]: the argument is first converted to a
    string; an integer prints as its decimal digits, NaN and null print as
    words that hold no digit. *)
Definition parseInt (v : JsVal) (radix : Radix) : JsVal :=
  match v with
  | VStr s => parseInt_string s radix
  | VNum z => VNum z
  | VNaN => VNaN
  | VNull => VNaN
  end.

(** [Array.from({length: n}, (_, i) => f(i))] *)
Definition Array_from (n : nat) (f : Z -> Z) : list Z :=
  map (fun i => f (Z.of_nat i)) (seq 0 n).

(** [xs.includes(x)] on numbers *)
Definition includes_num (xs : list Z) (x : Z) : bool :=
  existsb (fun y => y =? x) xs.

End Js.
Export Js.

(* ===================================================================== *)
(** ** Entities, as the backend serves them                              *)
(* ===================================================================== *)

Record Company := { c_id : Z; c_name : string }.

Record Product := {
  p_id : Z; p_name : string; p_company_id : Z; p_image_url : option string }.

Record Step := {
  s_id : Z; s_name : string; s_product_id : Z; s_step_number : Z }.

Record ClassCount := { cc_id : Z; cc_class : string; cc_product_id : Z }.

Record Image := {
  img_id : Z; img_product_id : Z; img_filename : string;
  img_access_url : option string }.

(** Form payloads sent on create and update. *)
Record CompanyForm := { cf_name : string }.

Record ProductForm := {
  pf_name : string; pf_company_id : JsVal; pf_image_url : string }.

Record ClassCountForm := { ccf_class : string; ccf_product_id : JsVal }.

Record StepForm := {
  sf_name : string; sf_product_id : JsVal; sf_step_number : JsVal }.

(** The body of [POST /login] and of its answer. *)
Record Credentials := { cred_username : string; cred_password : string }.

Record LoginData := {
  access_token : string; user_id : Z; ld_username : string }.

Record UserData := {
  ud_username : string; ud_email : string; ud_password : string }.

(* ===================================================================== *)
(** ** The network, durable storage and the effect monad                 *)
(* ===================================================================== *)

Module Net.

(** The token interpolated into an explicit [Authorization: Bearer ...]
    header; [None] is a null token. *)
Definition Bearer := option string.

(** What a rejected promise carries: [error.name], [error.message] and
    [error.response?.data] with its [message] and [error] members. *)
Record ErrorData := { ed_message : option string; ed_error : option string }.

Record ErrorResponse := { er_status : Z; er_data : option ErrorData }.

Record JsError := {
  e_name : string; e_message : option string;
  e_response : option ErrorResponse }.

(** [error.response?.data?.message] *)
Definition response_message (e : JsError) : option string :=
  match e_response e with
  | Some r => match er_data r with Some d => ed_message d | None => None end
  | None => None
  end.

(** [error.response?.data?.error] *)
Definition response_error (e : JsError) : option string :=
  match e_response e with
  | Some r => match er_data r with Some d => ed_error d | None => None end
  | None => None
  end.

Inductive Outcome (A : Type) :=
| Resolved (a : A)
| Rejected (e : JsError).
Arguments Resolved {A} a.
Arguments Rejected {A} e.

(** The answer to the bulk download: the body and the Content-Disposition
    header, when the server sent one. *)
Record Download := { dl_blob : string; dl_content_disposition : option string }.

Record RegisterData := { rd_message : option string }.

(** Every request the sequential handlers send. An identifier spliced into a
    path is [None] when the state still holds its initial null. *)
Inductive Req :=
| GetCompanies
| PostCompany (body : CompanyForm)
| PutCompany (id : option Z) (body : CompanyForm)
| DeleteCompany (id : option Z)
| GetProducts
| PostProduct (body : ProductForm)
| PutProduct (id : option Z) (body : ProductForm)
| DeleteProduct (id : option Z)
| GetClassCounts
| PostClassCount (body : ClassCountForm)
| PutClassCount (id : option Z) (body : ClassCountForm)
| DeleteClassCount (id : option Z)
| GetDownloadAll (auth : Bearer)
| PostLogin (body : Credentials)
| PostRegister (body : UserData)
| GetCompaniesAs (auth : Bearer)
| GetProductsAs (auth : Bearer)
| GetCompanyImages (company : string) (auth : Bearer)
| DeleteImage (id : Z) (auth : Bearer)
| FetchDataUrl (src : string)
| PostImage (blob : string) (product_id : string) (auth : Bearer).

Definition Resp (r : Req) : Type :=
  match r with
  | GetCompanies | GetCompaniesAs _ => list Company
  | PostCompany _ | PutCompany _ _ => Company
  | GetProducts | GetProductsAs _ => list Product
  | PostProduct _ | PutProduct _ _ => Product
  | GetClassCounts => list ClassCount
  | PostClassCount _ | PutClassCount _ _ => ClassCount
  | DeleteCompany _ | DeleteProduct _ | DeleteClassCount _ | DeleteImage _ _ => unit
  | GetDownloadAll _ => Download
  | PostLogin _ => LoginData
  | PostRegister _ => RegisterData
  | GetCompanyImages _ _ => list Image
  | FetchDataUrl _ => string
  | PostImage _ _ _ => unit
  end.

(** The backend (and the browser's own fetch of a data URL): any state, any
    answer to any request. *)
Record Backend := {
  BState : Type;
  respond : forall r : Req, BState -> Outcome (Resp r) * BState }.

(** Whether a promise was fulfilled. *)
Definition resolved {A} (o : Outcome A) : bool :=
  match o with
  | Resolved _ => true
  | Rejected _ => false
  end.

(** A request that only reads: answering it leaves the backend as it was. *)
Definition reads_only (B : Backend) (r : Req) : Prop :=
  forall s, snd (respond B r s) = s.

(** The three writes every entity screen offers. *)
Inductive Mutation := Create | Update | Delete.

(** What a handler can touch outside its component's state. *)
Record World (B : Backend) := {
  server : BState B;
  calls : list Req;
  localStorage : gmap string string;
  saved : list string }.
Arguments server {B} w.
Arguments calls {B} w.
Arguments localStorage {B} w.
Arguments saved {B} w.

Definition M (B : Backend) (A : Type) : Type := World B -> A * World B.

Definition ret {B A} (a : A) : M B A := fun w => (a, w).

Definition bind {B A C} (m : M B A) (k : A -> M B C) : M B C :=
  fun w => let '(a, w') := m w in k a w'.

(** [await axios...]: the request is logged and the backend answers. *)
Definition axios {B} (r : Req) : M B (Outcome (Resp r)) :=
  fun w =>
    let '(o, s) := respond B r (server w) in
    (o, {| server := s; calls := calls w ++ [r];
           localStorage := localStorage w; saved := saved w |}).

(** The world once request [r] has been sent and answered. *)
Definition sent {B} (r : Req) (w : World B) : World B :=
  {| server := snd (respond B r (server w)); calls := calls w ++ [r];
     localStorage := localStorage w; saved := saved w |}.

(** A computation that only reads the backend: it leaves the backend as it
    was, and its result depends on nothing but the backend. *)
Definition plain_read {B A} (m : World B -> A * World B) : Prop :=
  (forall w, server (snd (m w)) = server w)
  /\ (forall w w', server w = server w' -> fst (m w) = fst (m w')).

(** [localStorage.getItem(k)] *)
Definition getItem {B} (k : string) : M B (option string) :=
  fun w => (localStorage w !! k, w).

(** [localStorage.setItem(k, v)] *)
Definition setItem {B} (k v : string) : M B unit :=
  fun w => (tt, {| server := server w; calls := calls w;
                   localStorage := <[k := v]> (localStorage w); saved := saved w |}).

(** [localStorage.removeItem(k)] *)
Definition removeItem {B} (k : string) : M B unit :=
  fun w => (tt, {| server := server w; calls := calls w;
                   localStorage := delete k (localStorage w); saved := saved w |}).

(** The click on the temporary download link: a file is saved. *)
Definition saveAs {B} (filename : string) : M B unit :=
  fun w => (tt, {| server := server w; calls := calls w;
                   localStorage := localStorage w; saved := saved w ++ [filename] |}).

End Net.
Export Net.

Notation "x <- m ;; k" := (bind m (fun x => k))
  (at level 20, m at level 99, k at level 200, only parsing).

(* ===================================================================== *)
(** ** services/api.js: the gateway                                      *)
(* ===================================================================== *)

Module Api.

(** The object every gateway function returns: [{ success, data?, error?,
    message? }]. *)
Record Result (D : Type) := {
  success : bool;
  data : option D;
  error : option string;
  message : option string }.
Arguments success {D} r.
Arguments data {D} r.
Arguments error {D} r.
Arguments message {D} r.

(** [{ success: true, data: response.data }] *)
Definition ok {D} (d : D) : Result D :=
  {| success := true; data := Some d; error := None; message := None |}.

(** [{ success: true }] *)
Definition ok_plain {D} : Result D :=
  {| success := true; data := None; error := None; message := None |}.

(** [{ success: false, error: msg }] *)
Definition failure {D} (msg : string) : Result D :=
  {| success := false; data := None; error := Some msg; message := None |}.

(** The [catch] block shared by all gateway functions:
    [error.response?.data?.message || fallback]. *)
Definition caught {D} (e : JsError) (fallback : string) : Result D :=
  failure (or_default (response_message e) fallback).

(** The download's file name is read from the header with a regular
    expression: the word filename, an equals sign, an optional double quote,
    a captured run of one or more characters other than the double quote,
    and an optional closing double quote. [non_quote_run] is the capture:
    the longest run of characters other than the double quote. *)
Fixpoint non_quote_run (s : string) : string :=
  match s with
  | EmptyString => EmptyString
  | String c s' =>
      if Ascii.eqb c dquote then EmptyString else String c (non_quote_run s')
  end.

(** The rest of the pattern once [filename=] has been read: an optional
    quote, then at least one character that is not a quote. *)
Definition after_key (s : string) : option string :=
  match s with
  | EmptyString => None
  | String c s' =>
      if Ascii.eqb c dquote then
        match non_quote_run s' with
        | EmptyString => None
        | cap => Some cap
        end
      else Some (non_quote_run s)
  end.

Fixpoint drop_chars (n : nat) (s : string) : string :=
  match n, s with
  | O, _ => s
  | S n', String _ s' => drop_chars n' s'
  | S _, EmptyString => EmptyString
  end.

Definition drop_key (s : string) : string := drop_chars 9 s.

(** [contentDisposition.match(...)] with that expression, giving
    [matches[1]] of the leftmost match. *)
Fixpoint filename_match (s : string) : option string :=
  let here :=
    if String.prefix "filename=" s then after_key (drop_key s) else None in
  match here with
  | Some cap => Some cap
  | None =>
      match s with
      | EmptyString => None
      | String _ s' => filename_match s'
      end
  end.

(** The name the downloaded archive is saved under. *)
Definition download_filename (contentDisposition : option string) : string :=
  match contentDisposition with
  | Some cd =>
      if str_truthy cd then
        match filename_match cd with
        | Some name => if str_truthy name then name else "all_images.zip"
        | None => "all_images.zip"
        end
      else "all_images.zip"
  | None => "all_images.zip"
  end.

Section Gateway.
Context {B : Backend}.

(** One [try { await axios...; return ok } catch { return failure }]. *)
Definition request (r : Req) (fallback : string)
    (on_ok : Resp r -> Result (Resp r)) : M B (Result (Resp r)) :=
  o <- axios r ;;
  match o with
  | Resolved d => ret (on_ok d)
  | Rejected e => ret (caught e fallback)
  end.

Definition getCompanies : M B (Result (list Company)) :=
  request GetCompanies "Failed to fetch companies" ok.

Definition createCompany (company : CompanyForm) : M B (Result Company) :=
  request (PostCompany company) "Failed to create company" ok.

Definition updateCompany (id : option Z) (company : CompanyForm) : M B (Result Company) :=
  request (PutCompany id company) "Failed to update company" ok.

Definition deleteCompany (id : option Z) : M B (Result unit) :=
  request (DeleteCompany id) "Failed to delete company" (fun _ => ok_plain).

Definition getProducts : M B (Result (list Product)) :=
  request GetProducts "Failed to fetch products" ok.

Definition createProduct (product : ProductForm) : M B (Result Product) :=
  request (PostProduct product) "Failed to create product" ok.

Definition updateProduct (id : option Z) (product : ProductForm) : M B (Result Product) :=
  request (PutProduct id product) "Failed to update product" ok.

Definition deleteProduct (id : option Z) : M B (Result unit) :=
  request (DeleteProduct id) "Failed to delete product" (fun _ => ok_plain).

Definition getClassCounts : M B (Result (list ClassCount)) :=
  request GetClassCounts "Failed to fetch classes" ok.

Definition createClassCount (classCount : ClassCountForm) : M B (Result ClassCount) :=
  request (PostClassCount classCount) "Failed to create class" ok.

Definition updateClassCount (id : option Z) (classCount : ClassCountForm)
    : M B (Result ClassCount) :=
  request (PutClassCount id classCount) "Failed to update class" ok.

Definition deleteClassCount (id : option Z) : M B (Result unit) :=
  request (DeleteClassCount id) "Failed to delete class" (fun _ => ok_plain).

(** The bulk download: on success the archive is saved under the name the
    Content-Disposition header suggests, and the result carries a message. *)
Definition downloadAllImages : M B (Result unit) :=
  token <- getItem "token" ;;
  o <- axios (GetDownloadAll token) ;;
  match o with
  | Resolved response =>
      u <- saveAs (download_filename (dl_content_disposition response)) ;;
      ret {| success := true; data := None; error := None;
             message := Some "Download started" |}
  | Rejected e => ret (caught e "Failed to download images")
  end.

End Gateway.

End Api.

(* ===================================================================== *)
(** ** context/AuthContext.js: the session store                         *)
(* ===================================================================== *)

Module AuthContext.

Record User := { id : option Z; username : option string }.

(** The [auth] state of [AuthProvider]. *)
Record Auth := {
  loading : bool;
  isAuthenticated : bool;
  user : option User;
  token : option string }.

(** What [jwt_decode] reads from a token: the [exp] and [sub] claims, each
    possibly missing. *)
Record JwtPayload := { exp : option Q; sub : option Z }.

(** [{ loading: false, isAuthenticated: false, user: null, token: null }] *)
Definition signedOut : Auth :=
  {| loading := false; isAuthenticated := false; user := None; token := None |}.

(** The initial state: [token: localStorage.getItem('token') || null]. *)
Definition initialAuth (storage : gmap string string) : Auth :=
  {| loading := true; isAuthenticated := false; user := None;
     token := match storage !! "token" with
              | Some t => if str_truthy t then Some t else None
              | None => None
              end |}.

(** [Date.now() / 1000] *)
Definition currentTime (Date_now : Z) : Q := Qmake Date_now 1000.

(** [exp < currentTime]; a missing [exp] compares false. *)
Definition exp_before (e : option Q) (now : Q) : bool :=
  match e with
  | Some x => negb (Qle_bool now x)
  | None => false
  end.

(** The effect that keeps [axios.defaults.headers.common.Authorization] in
    step with [auth.token]: the header, or none. *)
Definition authorizationHeader (a : Auth) : option string :=
  match token a with
  | Some t => if str_truthy t then Some ("Bearer " +:+ t) else None
  | None => None
  end.

(** The object [login] and [register] return. *)
Record Reply := { success : bool; message : option string }.

Section Provider.
Context {B : Backend}.

(** The third-party decoder: [None] when it throws. *)
Variable jwt_decode : string -> option JwtPayload.

(** [loadUser], run once when the provider mounts; the result is the value
    handed to [setAuth]. *)
Definition loadUser (Date_now : Z) : M B Auth :=
  stored <- getItem "token" ;;
  match stored with
  | None => ret signedOut
  | Some t =>
      if negb (str_truthy t) then ret signedOut
      else
        match jwt_decode t with
        | Some decoded =>
            if exp_before (exp decoded) (currentTime Date_now) then
              u <- removeItem "token" ;;
              ret signedOut
            else
              name <- getItem "username" ;;
              ret {| loading := false; isAuthenticated := true;
                     user := Some {| id := sub decoded; username := name |};
                     token := Some t |}
        | None =>
            u <- removeItem "token" ;;
            ret signedOut
        end
  end.

(** [login(credentials)]: the reply and the next [auth] state. *)
Definition login (credentials : Credentials) (auth : Auth) : M B (Reply * Auth) :=
  o <- axios (PostLogin credentials) ;;
  match o with
  | Resolved d =>
      u <- setItem "token" (access_token d) ;;
      v <- setItem "username" (ld_username d) ;;
      ret ({| success := true; message := None |},
           {| loading := false; isAuthenticated := true;
              user := Some {| id := Some (user_id d);
                              username := Some (ld_username d) |};
              token := Some (access_token d) |})
  | Rejected e =>
      ret ({| success := false;
              message := Some (or_default (response_message e) "Authentication failed") |},
           auth)
  end.

(** [register(userData)]: never touches the session. *)
Definition register (userData : UserData) (auth : Auth) : M B (Reply * Auth) :=
  o <- axios (PostRegister userData) ;;
  match o with
  | Resolved d => ret ({| success := true; message := rd_message d |}, auth)
  | Rejected e =>
      ret ({| success := false;
              message := Some (or_default (response_message e) "Registration failed") |},
           auth)
  end.

(** [logout()] *)
Definition logout : M B Auth :=
  u <- removeItem "token" ;;
  v <- removeItem "username" ;;
  ret signedOut.

(** The operations that write the session, as the provider offers them. *)
Inductive Op :=
| Hydrate (Date_now : Z)
| Login (credentials : Credentials)
| Register (userData : UserData)
| Logout.

Definition step (op : Op) (auth : Auth) : M B Auth :=
  match op with
  | Hydrate now => loadUser now
  | Login c => r <- login c auth ;; ret (snd r)
  | Register u => r <- register u auth ;; ret (snd r)
  | Logout => logout
  end.

(** The session states a run goes through, one per operation. *)
Fixpoint states (ops : list Op) (auth : Auth) (w : World B) : list Auth :=
  match ops with
  | [] => []
  | op :: rest => let '(a, w') := step op auth w in a :: states rest a w'
  end.

End Provider.








(** The session invariant: authenticated exactly when both the token and
    the user are present, and signed out exactly when both are null. *)
Definition consistent (a : Auth) : bool :=
  if isAuthenticated a
  then bool_decide (is_Some (token a)) && bool_decide (is_Some (user a))
  else bool_decide (token a = None) && bool_decide (user a = None).

End AuthContext.

(* ===================================================================== *)
(** ** components/Companies.js                                           *)
(* ===================================================================== *)

(** [response.data] of a successful fetch, and [response.error] of a failed
    call, as the screens splice them into their state and messages. *)
Definition payload {D} (r : Api.Result (list D)) : list D := default [] (Api.data r).

Definition error_text {D} (r : Api.Result D) : string := default "undefined" (Api.error r).

Module Companies.
Import Api.

(** The component state, one field per [useState]. [currentCompany] is [None] while it still holds its initial object, whose [id] is null. *)
Record State := {
  companies : list Company;
  loading : bool;
  error : string;
  showAddModal : bool;
  showEditModal : bool;
  showDeleteModal : bool;
  currentCompany : option Company;
  formData : CompanyForm }.

Definition set_companies (v : list Company) (st : State) : State :=
  {| companies := v; loading := loading st; error := error st;
     showAddModal := showAddModal st; showEditModal := showEditModal st;
     showDeleteModal := showDeleteModal st;
     currentCompany := currentCompany st; formData := formData st |}.

Definition set_loading (v : bool) (st : State) : State :=
  {| companies := companies st; loading := v; error := error st;
     showAddModal := showAddModal st; showEditModal := showEditModal st;
     showDeleteModal := showDeleteModal st;
     currentCompany := currentCompany st; formData := formData st |}.

Definition set_error (v : string) (st : State) : State :=
  {| companies := companies st; loading := loading st; error := v;
     showAddModal := showAddModal st; showEditModal := showEditModal st;
     showDeleteModal := showDeleteModal st;
     currentCompany := currentCompany st; formData := formData st |}.

Definition set_showAddModal (v : bool) (st : State) : State :=
  {| companies := companies st; loading := loading st; error := error st;
     showAddModal := v; showEditModal := showEditModal st;
     showDeleteModal := showDeleteModal st;
     currentCompany := currentCompany st; formData := formData st |}.

Definition set_showEditModal (v : bool) (st : State) : State :=
  {| companies := companies st; loading := loading st; error := error st;
     showAddModal := showAddModal st; showEditModal := v;
     showDeleteModal := showDeleteModal st;
     currentCompany := currentCompany st; formData := formData st |}.

Definition set_showDeleteModal (v : bool) (st : State) : State :=
  {| companies := companies st; loading := loading st; error := error st;
     showAddModal := showAddModal st; showEditModal := showEditModal st;
     showDeleteModal := v; currentCompany := currentCompany st;
     formData := formData st |}.

Definition set_currentCompany (v : option Company) (st : State) : State :=
  {| companies := companies st; loading := loading st; error := error st;
     showAddModal := showAddModal st; showEditModal := showEditModal st;
     showDeleteModal := showDeleteModal st; currentCompany := v;
     formData := formData st |}.

Definition set_formData (v : CompanyForm) (st : State) : State :=
  {| companies := companies st; loading := loading st; error := error st;
     showAddModal := showAddModal st; showEditModal := showEditModal st;
     showDeleteModal := showDeleteModal st;
     currentCompany := currentCompany st; formData := v |}.

Definition initial : State :=
  {| companies := []; loading := true; error := ""; showAddModal := false;
     showEditModal := false; showDeleteModal := false; currentCompany := None;
     formData := {| cf_name := "" |} |}.

(** [currentCompany.id] *)
Definition current_id (st : State) : option Z := c_id <$> currentCompany st.

Definition handleAddShow (st : State) : State :=
  set_showAddModal true (set_formData {| cf_name := "" |} st).

Definition handleEditShow (company : Company) (st : State) : State :=
  set_showEditModal true
    (set_formData {| cf_name := c_name company |}
       (set_currentCompany (Some company) st)).

Definition handleDeleteShow (company : Company) (st : State) : State :=
  set_showDeleteModal true (set_currentCompany (Some company) st).

Definition handleClose (st : State) : State :=
  set_showDeleteModal false (set_showEditModal false (set_showAddModal false st)).

(** [handleChange] for the one input of the form, the name. *)
Definition handleChange (value : string) (st : State) : State :=
  set_formData {| cf_name := value |} st.

(** The form passes the checks of [handleAdd] and [handleEdit]. *)
Definition form_ok (st : State) : bool :=
  str_truthy (trim (cf_name (formData st))).

(** The request each write sends once its form is accepted. *)
Definition write_request (m : Mutation) (st : State) : Req :=
  match m with
  | Create => PostCompany (formData st)
  | Update => PutCompany (current_id st) (formData st)
  | Delete => DeleteCompany (current_id st)
  end.

Section Handlers.
Context {B : Backend}.

Definition fetchCompanies (st : State) : M B State :=
  let st := set_error "" (set_loading true st) in
  response <- getCompanies ;;
  let st :=
    if success response then set_companies (payload response) st
    else set_error ("Failed to fetch companies: " +:+ error_text response) st in
  ret (set_loading false st).

Definition handleAdd (st : State) : M B State :=
  if negb (str_truthy (trim (cf_name (formData st)))) then
    ret (set_error "Company name is required" st)
  else
    let st1 := set_loading true st in
    response <- createCompany (formData st) ;;
    st2 <- (if success response then
              s <- fetchCompanies st1 ;;
              ret (set_formData {| cf_name := "" |} (set_showAddModal false s))
            else
              ret (set_error ("Error adding company: " +:+ error_text response) st1)) ;;
    ret (set_loading false st2).

Definition handleEdit (st : State) : M B State :=
  if negb (str_truthy (trim (cf_name (formData st)))) then
    ret (set_error "Company name is required" st)
  else
    let st1 := set_loading true st in
    response <- updateCompany (current_id st) (formData st) ;;
    st2 <- (if success response then
              s <- fetchCompanies st1 ;;
              ret (set_showEditModal false s)
            else
              ret (set_error ("Error updating company: " +:+ error_text response) st1)) ;;
    ret (set_loading false st2).

Definition handleDelete (st : State) : M B State :=
  let st1 := set_loading true st in
  response <- deleteCompany (current_id st) ;;
  st2 <- (if success response then
            s <- fetchCompanies st1 ;;
            ret (set_showDeleteModal false s)
          else
            ret (set_error ("Error deleting company: " +:+ error_text response) st1)) ;;
  ret (set_loading false st2).

(** The three writes of the screen. *)
Definition write (m : Mutation) (st : State) : M B State :=
  match m with
  | Create => handleAdd st
  | Update => handleEdit st
  | Delete => handleDelete st
  end.

(** The write goes through: its form is in order (a delete has none) and
    the backend fulfils its request. *)
Definition accepted (m : Mutation) (st : State) (w : World B) : bool :=
  match m with Delete => true | _ => form_ok st end
  && resolved (fst (respond B (write_request m st) (server w))).

End Handlers.

End Companies.

(* ===================================================================== *)
(** ** components/Products.js                                            *)
(* ===================================================================== *)

Module Products.
Import Api.

(** The component state, one field per [useState]. [currentProduct] is [None] while it still holds its initial object, whose [id] is null. *)
Record State := {
  products : list Product;
  companies : list Company;
  loading : bool;
  error : string;
  showAddModal : bool;
  showEditModal : bool;
  showDeleteModal : bool;
  currentProduct : option Product;
  formData : ProductForm }.

Definition set_products (v : list Product) (st : State) : State :=
  {| products := v; companies := companies st; loading := loading st;
     error := error st; showAddModal := showAddModal st;
     showEditModal := showEditModal st;
     showDeleteModal := showDeleteModal st;
     currentProduct := currentProduct st; formData := formData st |}.

Definition set_companies (v : list Company) (st : State) : State :=
  {| products := products st; companies := v; loading := loading st;
     error := error st; showAddModal := showAddModal st;
     showEditModal := showEditModal st;
     showDeleteModal := showDeleteModal st;
     currentProduct := currentProduct st; formData := formData st |}.

Definition set_loading (v : bool) (st : State) : State :=
  {| products := products st; companies := companies st; loading := v;
     error := error st; showAddModal := showAddModal st;
     showEditModal := showEditModal st;
     showDeleteModal := showDeleteModal st;
     currentProduct := currentProduct st; formData := formData st |}.

Definition set_error (v : string) (st : State) : State :=
  {| products := products st; companies := companies st;
     loading := loading st; error := v; showAddModal := showAddModal st;
     showEditModal := showEditModal st;
     showDeleteModal := showDeleteModal st;
     currentProduct := currentProduct st; formData := formData st |}.

Definition set_showAddModal (v : bool) (st : State) : State :=
  {| products := products st; companies := companies st;
     loading := loading st; error := error st; showAddModal := v;
     showEditModal := showEditModal st;
     showDeleteModal := showDeleteModal st;
     currentProduct := currentProduct st; formData := formData st |}.

Definition set_showEditModal (v : bool) (st : State) : State :=
  {| products := products st; companies := companies st;
     loading := loading st; error := error st;
     showAddModal := showAddModal st; showEditModal := v;
     showDeleteModal := showDeleteModal st;
     currentProduct := currentProduct st; formData := formData st |}.

Definition set_showDeleteModal (v : bool) (st : State) : State :=
  {| products := products st; companies := companies st;
     loading := loading st; error := error st;
     showAddModal := showAddModal st; showEditModal := showEditModal st;
     showDeleteModal := v; currentProduct := currentProduct st;
     formData := formData st |}.

Definition set_currentProduct (v : option Product) (st : State) : State :=
  {| products := products st; companies := companies st;
     loading := loading st; error := error st;
     showAddModal := showAddModal st; showEditModal := showEditModal st;
     showDeleteModal := showDeleteModal st; currentProduct := v;
     formData := formData st |}.

Definition set_formData (v : ProductForm) (st : State) : State :=
  {| products := products st; companies := companies st;
     loading := loading st; error := error st;
     showAddModal := showAddModal st; showEditModal := showEditModal st;
     showDeleteModal := showDeleteModal st;
     currentProduct := currentProduct st; formData := v |}.

Definition emptyForm : ProductForm :=
  {| pf_name := ""; pf_company_id := VStr ""; pf_image_url := "" |}.

Definition initial : State :=
  {| products := []; companies := []; loading := true; error := "";
     showAddModal := false; showEditModal := false; showDeleteModal := false;
     currentProduct := None; formData := emptyForm |}.

(** [currentProduct.id] *)
Definition current_id (st : State) : option Z := p_id <$> currentProduct st.

Definition handleAddShow (st : State) : State :=
  set_showAddModal true (set_formData emptyForm st).

Definition handleEditShow (product : Product) (st : State) : State :=
  set_showEditModal true
    (set_formData {| pf_name := p_name product;
                     pf_company_id := VNum (p_company_id product);
                     pf_image_url := or_default (p_image_url product) "" |}
       (set_currentProduct (Some product) st)).

Definition handleDeleteShow (product : Product) (st : State) : State :=
  set_showDeleteModal true (set_currentProduct (Some product) st).

Definition handleClose (st : State) : State :=
  set_showDeleteModal false (set_showEditModal false (set_showAddModal false st)).

(** [handleChange]: the input named [name] writes that field of the form;
    the company selector is parsed with radix 10. *)
Definition handleChange (name value : string) (st : State) : State :=
  let f := formData st in
  if String.eqb name "company_id" then
    set_formData {| pf_name := pf_name f;
                    pf_company_id := parseInt (VStr value) Radix10;
                    pf_image_url := pf_image_url f |} st
  else if String.eqb name "name" then
    set_formData {| pf_name := value; pf_company_id := pf_company_id f;
                    pf_image_url := pf_image_url f |} st
  else if String.eqb name "image_url" then
    set_formData {| pf_name := pf_name f; pf_company_id := pf_company_id f;
                    pf_image_url := value |} st
  else st.

(** The form passes the checks of [handleAdd] and [handleEdit]. *)
Definition form_ok (st : State) : bool :=
  str_truthy (trim (pf_name (formData st))) && truthy (pf_company_id (formData st)).

(** The request each write sends once its form is accepted. *)
Definition write_request (m : Mutation) (st : State) : Req :=
  match m with
  | Create => PostProduct (formData st)
  | Update => PutProduct (current_id st) (formData st)
  | Delete => DeleteProduct (current_id st)
  end.

Section Handlers.
Context {B : Backend}.

(** Both requests leave before either answer is read. *)
Definition fetchData (st : State) : M B State :=
  let st := set_error "" (set_loading true st) in
  productsResponse <- getProducts ;;
  companiesResponse <- getCompanies ;;
  let st :=
    if success productsResponse then set_products (payload productsResponse) st
    else set_error ("Failed to fetch products: " +:+ error_text productsResponse) st in
  let st :=
    if success companiesResponse then set_companies (payload companiesResponse) st
    else set_error (error st +:+ " Failed to fetch companies: "
                    +:+ error_text companiesResponse) st in
  ret (set_loading false st).

Definition handleAdd (st : State) : M B State :=
  if negb (str_truthy (trim (pf_name (formData st)))) then
    ret (set_error "Product name is required" st)
  else if negb (truthy (pf_company_id (formData st))) then
    ret (set_error "Company is required" st)
  else
    let st1 := set_loading true st in
    response <- createProduct (formData st) ;;
    st2 <- (if success response then
              s <- fetchData st1 ;;
              ret (set_formData emptyForm (set_showAddModal false s))
            else
              ret (set_error ("Error adding product: " +:+ error_text response) st1)) ;;
    ret (set_loading false st2).

Definition handleEdit (st : State) : M B State :=
  if negb (str_truthy (trim (pf_name (formData st)))) then
    ret (set_error "Product name is required" st)
  else if negb (truthy (pf_company_id (formData st))) then
    ret (set_error "Company is required" st)
  else
    let st1 := set_loading true st in
    response <- updateProduct (current_id st) (formData st) ;;
    st2 <- (if success response then
              s <- fetchData st1 ;;
              ret (set_showEditModal false s)
            else
              ret (set_error ("Error updating product: " +:+ error_text response) st1)) ;;
    ret (set_loading false st2).

Definition handleDelete (st : State) : M B State :=
  let st1 := set_loading true st in
  response <- deleteProduct (current_id st) ;;
  st2 <- (if success response then
            s <- fetchData st1 ;;
            ret (set_showDeleteModal false s)
          else
            ret (set_error ("Error deleting product: " +:+ error_text response) st1)) ;;
  ret (set_loading false st2).

(** The three writes of the screen. *)
Definition write (m : Mutation) (st : State) : M B State :=
  match m with
  | Create => handleAdd st
  | Update => handleEdit st
  | Delete => handleDelete st
  end.

(** The write goes through: its form is in order (a delete has none) and
    the backend fulfils its request. *)
Definition accepted (m : Mutation) (st : State) (w : World B) : bool :=
  match m with Delete => true | _ => form_ok st end
  && resolved (fst (respond B (write_request m st) (server w))).

End Handlers.

End Products.

(* ===================================================================== *)
(** ** components/ClassCounts.js                                         *)
(* ===================================================================== *)

Module ClassCounts.
Import Api.

(** The component state, one field per [useState]. [currentClassCount] is [None] while it still holds its initial object, whose [id] is null. *)
Record State := {
  classCounts : list ClassCount;
  products : list Product;
  loading : bool;
  error : string;
  showAddModal : bool;
  showEditModal : bool;
  showDeleteModal : bool;
  currentClassCount : option ClassCount;
  formData : ClassCountForm }.

Definition set_classCounts (v : list ClassCount) (st : State) : State :=
  {| classCounts := v; products := products st; loading := loading st;
     error := error st; showAddModal := showAddModal st;
     showEditModal := showEditModal st;
     showDeleteModal := showDeleteModal st;
     currentClassCount := currentClassCount st; formData := formData st |}.

Definition set_products (v : list Product) (st : State) : State :=
  {| classCounts := classCounts st; products := v; loading := loading st;
     error := error st; showAddModal := showAddModal st;
     showEditModal := showEditModal st;
     showDeleteModal := showDeleteModal st;
     currentClassCount := currentClassCount st; formData := formData st |}.

Definition set_loading (v : bool) (st : State) : State :=
  {| classCounts := classCounts st; products := products st; loading := v;
     error := error st; showAddModal := showAddModal st;
     showEditModal := showEditModal st;
     showDeleteModal := showDeleteModal st;
     currentClassCount := currentClassCount st; formData := formData st |}.

Definition set_error (v : string) (st : State) : State :=
  {| classCounts := classCounts st; products := products st;
     loading := loading st; error := v; showAddModal := showAddModal st;
     showEditModal := showEditModal st;
     showDeleteModal := showDeleteModal st;
     currentClassCount := currentClassCount st; formData := formData st |}.

Definition set_showAddModal (v : bool) (st : State) : State :=
  {| classCounts := classCounts st; products := products st;
     loading := loading st; error := error st; showAddModal := v;
     showEditModal := showEditModal st;
     showDeleteModal := showDeleteModal st;
     currentClassCount := currentClassCount st; formData := formData st |}.

Definition set_showEditModal (v : bool) (st : State) : State :=
  {| classCounts := classCounts st; products := products st;
     loading := loading st; error := error st;
     showAddModal := showAddModal st; showEditModal := v;
     showDeleteModal := showDeleteModal st;
     currentClassCount := currentClassCount st; formData := formData st |}.

Definition set_showDeleteModal (v : bool) (st : State) : State :=
  {| classCounts := classCounts st; products := products st;
     loading := loading st; error := error st;
     showAddModal := showAddModal st; showEditModal := showEditModal st;
     showDeleteModal := v; currentClassCount := currentClassCount st;
     formData := formData st |}.

Definition set_currentClassCount (v : option ClassCount) (st : State) : State :=
  {| classCounts := classCounts st; products := products st;
     loading := loading st; error := error st;
     showAddModal := showAddModal st; showEditModal := showEditModal st;
     showDeleteModal := showDeleteModal st; currentClassCount := v;
     formData := formData st |}.

Definition set_formData (v : ClassCountForm) (st : State) : State :=
  {| classCounts := classCounts st; products := products st;
     loading := loading st; error := error st;
     showAddModal := showAddModal st; showEditModal := showEditModal st;
     showDeleteModal := showDeleteModal st;
     currentClassCount := currentClassCount st; formData := v |}.

Definition emptyForm : ClassCountForm :=
  {| ccf_class := ""; ccf_product_id := VStr "" |}.

Definition initial : State :=
  {| classCounts := []; products := []; loading := true; error := "";
     showAddModal := false; showEditModal := false; showDeleteModal := false;
     currentClassCount := None; formData := emptyForm |}.

(** [currentClassCount.id] *)
Definition current_id (st : State) : option Z := cc_id <$> currentClassCount st.

Definition handleAddShow (st : State) : State :=
  set_showAddModal true (set_formData emptyForm st).

Definition handleEditShow (classCount : ClassCount) (st : State) : State :=
  set_showEditModal true
    (set_formData {| ccf_class := cc_class classCount;
                     ccf_product_id := VNum (cc_product_id classCount) |}
       (set_currentClassCount (Some classCount) st)).

Definition handleDeleteShow (classCount : ClassCount) (st : State) : State :=
  set_showDeleteModal true (set_currentClassCount (Some classCount) st).

Definition handleClose (st : State) : State :=
  set_showDeleteModal false (set_showEditModal false (set_showAddModal false st)).

Definition handleChange (name value : string) (st : State) : State :=
  let f := formData st in
  if String.eqb name "product_id" then
    set_formData {| ccf_class := ccf_class f;
                    ccf_product_id := parseInt (VStr value) Radix10 |} st
  else if String.eqb name "class" then
    set_formData {| ccf_class := value; ccf_product_id := ccf_product_id f |} st
  else st.

(** The form passes the checks of [handleAdd] and [handleEdit]. *)
Definition form_ok (st : State) : bool :=
  str_truthy (trim (ccf_class (formData st))) && truthy (ccf_product_id (formData st)).

(** The request each write sends once its form is accepted. *)
Definition write_request (m : Mutation) (st : State) : Req :=
  match m with
  | Create => PostClassCount (formData st)
  | Update => PutClassCount (current_id st) (formData st)
  | Delete => DeleteClassCount (current_id st)
  end.

Section Handlers.
Context {B : Backend}.

Definition fetchData (st : State) : M B State :=
  let st := set_error "" (set_loading true st) in
  classCountsResponse <- getClassCounts ;;
  productsResponse <- getProducts ;;
  let st :=
    if success classCountsResponse
    then set_classCounts (payload classCountsResponse) st
    else set_error ("Failed to fetch class counts: "
                    +:+ error_text classCountsResponse) st in
  let st :=
    if success productsResponse then set_products (payload productsResponse) st
    else set_error (error st +:+ " Failed to fetch products: "
                    +:+ error_text productsResponse) st in
  ret (set_loading false st).

Definition handleAdd (st : State) : M B State :=
  if negb (str_truthy (trim (ccf_class (formData st)))) then
    ret (set_error "Class is required" st)
  else if negb (truthy (ccf_product_id (formData st))) then
    ret (set_error "Product is required" st)
  else
    let st1 := set_loading true st in
    response <- createClassCount (formData st) ;;
    st2 <- (if success response then
              s <- fetchData st1 ;;
              ret (set_formData emptyForm (set_showAddModal false s))
            else
              ret (set_error ("Error adding class: " +:+ error_text response) st1)) ;;
    ret (set_loading false st2).

Definition handleEdit (st : State) : M B State :=
  if negb (str_truthy (trim (ccf_class (formData st)))) then
    ret (set_error "Class is required" st)
  else if negb (truthy (ccf_product_id (formData st))) then
    ret (set_error "Product is required" st)
  else
    let st1 := set_loading true st in
    response <- updateClassCount (current_id st) (formData st) ;;
    st2 <- (if success response then
              s <- fetchData st1 ;;
              ret (set_showEditModal false s)
            else
              ret (set_error ("Error updating class: " +:+ error_text response) st1)) ;;
    ret (set_loading false st2).

Definition handleDelete (st : State) : M B State :=
  let st1 := set_loading true st in
  response <- deleteClassCount (current_id st) ;;
  st2 <- (if success response then
            s <- fetchData st1 ;;
            ret (set_showDeleteModal false s)
          else
            ret (set_error ("Error deleting class: " +:+ error_text response) st1)) ;;
  ret (set_loading false st2).

(** The three writes of the screen. *)
Definition write (m : Mutation) (st : State) : M B State :=
  match m with
  | Create => handleAdd st
  | Update => handleEdit st
  | Delete => handleDelete st
  end.

(** The write goes through: its form is in order (a delete has none) and
    the backend fulfils its request. *)
Definition accepted (m : Mutation) (st : State) (w : World B) : bool :=
  match m with Delete => true | _ => form_ok st end
  && resolved (fst (respond B (write_request m st) (server w))).

End Handlers.

End ClassCounts.

(* ===================================================================== *)
(** ** components/Steps.js                                               *)
(* ===================================================================== *)

Module Steps.
Import Api.

(** The component state, one field per [useState]. [currentStep] is [None] while it still holds its initial object, whose [id] is null. *)
Record State := {
  steps : list Step;
  products : list Product;
  loading : bool;
  error : string;
  showAddModal : bool;
  showEditModal : bool;
  showDeleteModal : bool;
  currentStep : option Step;
  formData : StepForm }.

Definition set_steps (v : list Step) (st : State) : State :=
  {| steps := v; products := products st; loading := loading st;
     error := error st; showAddModal := showAddModal st;
     showEditModal := showEditModal st;
     showDeleteModal := showDeleteModal st; currentStep := currentStep st;
     formData := formData st |}.

Definition set_products (v : list Product) (st : State) : State :=
  {| steps := steps st; products := v; loading := loading st;
     error := error st; showAddModal := showAddModal st;
     showEditModal := showEditModal st;
     showDeleteModal := showDeleteModal st; currentStep := currentStep st;
     formData := formData st |}.

Definition set_loading (v : bool) (st : State) : State :=
  {| steps := steps st; products := products st; loading := v;
     error := error st; showAddModal := showAddModal st;
     showEditModal := showEditModal st;
     showDeleteModal := showDeleteModal st; currentStep := currentStep st;
     formData := formData st |}.

Definition set_error (v : string) (st : State) : State :=
  {| steps := steps st; products := products st; loading := loading st;
     error := v; showAddModal := showAddModal st;
     showEditModal := showEditModal st;
     showDeleteModal := showDeleteModal st; currentStep := currentStep st;
     formData := formData st |}.

Definition set_showAddModal (v : bool) (st : State) : State :=
  {| steps := steps st; products := products st; loading := loading st;
     error := error st; showAddModal := v; showEditModal := showEditModal st;
     showDeleteModal := showDeleteModal st; currentStep := currentStep st;
     formData := formData st |}.

Definition set_showEditModal (v : bool) (st : State) : State :=
  {| steps := steps st; products := products st; loading := loading st;
     error := error st; showAddModal := showAddModal st; showEditModal := v;
     showDeleteModal := showDeleteModal st; currentStep := currentStep st;
     formData := formData st |}.

Definition set_showDeleteModal (v : bool) (st : State) : State :=
  {| steps := steps st; products := products st; loading := loading st;
     error := error st; showAddModal := showAddModal st;
     showEditModal := showEditModal st; showDeleteModal := v;
     currentStep := currentStep st; formData := formData st |}.

Definition set_currentStep (v : option Step) (st : State) : State :=
  {| steps := steps st; products := products st; loading := loading st;
     error := error st; showAddModal := showAddModal st;
     showEditModal := showEditModal st;
     showDeleteModal := showDeleteModal st; currentStep := v;
     formData := formData st |}.

Definition set_formData (v : StepForm) (st : State) : State :=
  {| steps := steps st; products := products st; loading := loading st;
     error := error st; showAddModal := showAddModal st;
     showEditModal := showEditModal st;
     showDeleteModal := showDeleteModal st; currentStep := currentStep st;
     formData := v |}.

Definition initial : State :=
  {| steps := []; products := []; loading := true; error := "";
     showAddModal := false; showEditModal := false; showDeleteModal := false;
     currentStep := None;
     formData := {| sf_name := ""; sf_product_id := VStr ""; sf_step_number := VStr "" |} |}.

(** [currentStep.id]: a number, or the initial null. *)
Definition current_id (st : State) : option Z := s_id <$> currentStep st.

Definition current_id_val (st : State) : JsVal :=
  match currentStep st with
  | Some s => VNum (s_id s)
  | None => VNull
  end.

(** [getAvailableStepNumbers(productId, excludeStepId = null)], reading the
    [steps] of the current render. *)
Definition getAvailableStepNumbers (steps : list Step) (productId : JsVal)
    (excludeStepId : JsVal) : list Z :=
  if negb (truthy productId) then []
  else
    let usedStepNumbers :=
      map s_step_number
        (List.filter
           (fun step =>
              strict_eq (VNum (s_product_id step)) (parseInt productId RadixDefault)
              && negb (strict_eq (VNum (s_id step)) excludeStepId))
           steps) in
    let allStepNumbers := Array_from 20 (fun i => i + 1) in
    List.filter (fun num => negb (includes_num usedStepNumbers num)) allStepNumbers.

Definition handleAddShow (st : State) : State :=
  set_showAddModal true
    (set_formData {| sf_name := ""; sf_product_id := VStr "";
                     sf_step_number := VStr "1" |} st).

Definition handleEditShow (step : Step) (st : State) : State :=
  set_showEditModal true
    (set_formData {| sf_name := s_name step;
                     sf_product_id := VNum (s_product_id step);
                     sf_step_number := VNum (s_step_number step) |}
       (set_currentStep (Some step) st)).

Definition handleDeleteShow (step : Step) (st : State) : State :=
  set_showDeleteModal true (set_currentStep (Some step) st).

Definition handleClose (st : State) : State :=
  set_showDeleteModal false (set_showEditModal false (set_showAddModal false st)).

(** [handleChange]: choosing a product clears the step number. *)
Definition handleChange (name value : string) (st : State) : State :=
  let f := formData st in
  if String.eqb name "product_id" then
    set_formData {| sf_name := sf_name f;
                    sf_product_id := parseInt (VStr value) Radix10;
                    sf_step_number := VStr "" |} st
  else if String.eqb name "step_number" then
    set_formData {| sf_name := sf_name f; sf_product_id := sf_product_id f;
                    sf_step_number := parseInt (VStr value) Radix10 |} st
  else if String.eqb name "name" then
    set_formData {| sf_name := value; sf_product_id := sf_product_id f;
                    sf_step_number := sf_step_number f |} st
  else st.

(** The step numbers the Add modal offers, its warning line, and whether
    its submit button is disabled. *)
Definition addOptions (st : State) : list Z :=
  getAvailableStepNumbers (steps st) (sf_product_id (formData st)) VNull.

Definition addWarning (st : State) : option string :=
  if truthy (sf_product_id (formData st)) && (length (addOptions st) =? 0)%nat
  then Some "All step positions (1-20) are taken for this product"
  else None.

Definition addDisabled (st : State) : bool :=
  loading st
  || (truthy (sf_product_id (formData st)) && (length (addOptions st) =? 0)%nat).

(** The same for the Edit modal, whose options leave out the step being
    edited and whose button is disabled only while loading. *)
Definition editOptions (st : State) : list Z :=
  getAvailableStepNumbers (steps st) (sf_product_id (formData st)) (current_id_val st).

Definition editWarning (st : State) : option string :=
  if truthy (sf_product_id (formData st)) && (length (editOptions st) =? 0)%nat
  then Some "All step positions (1-20) are taken for this product"
  else None.

Definition editDisabled (st : State) : bool := loading st.

(** The form passes the checks of [handleAdd] and [handleEdit]. *)
Definition form_ok (st : State) : bool :=
  str_truthy (trim (sf_name (formData st)))
  && truthy (sf_product_id (formData st))
  && truthy (sf_step_number (formData st)).

Section Handlers.
Context {B : Backend}.

(** The four gateway functions this screen imports from [services/api];
    that file does not define them, so they are left open here. *)
Variable getSteps : M B (Result (list Step)).
Variable createStep : StepForm -> M B (Result Step).
Variable updateStep : option Z -> StepForm -> M B (Result Step).
Variable deleteStep : option Z -> M B (Result unit).

Definition fetchData (st : State) : M B State :=
  let st := set_error "" (set_loading true st) in
  stepsResponse <- getSteps ;;
  productsResponse <- getProducts ;;
  let st :=
    if success stepsResponse then set_steps (payload stepsResponse) st
    else set_error ("Failed to fetch steps: " +:+ error_text stepsResponse) st in
  let st :=
    if success productsResponse then set_products (payload productsResponse) st
    else set_error (error st +:+ " Failed to fetch products: "
                    +:+ error_text productsResponse) st in
  ret (set_loading false st).

Definition handleAdd (st : State) : M B State :=
  if negb (str_truthy (trim (sf_name (formData st)))) then
    ret (set_error "Step name is required" st)
  else if negb (truthy (sf_product_id (formData st))) then
    ret (set_error "Product is required" st)
  else if negb (truthy (sf_step_number (formData st))) then
    ret (set_error "Step number is required" st)
  else
    let st1 := set_loading true st in
    response <- createStep (formData st) ;;
    st2 <- (if success response then
              s <- fetchData st1 ;;
              ret (set_formData {| sf_name := ""; sf_product_id := VStr "";
                                   sf_step_number := VStr "1" |}
                     (set_showAddModal false s))
            else
              ret (set_error ("Error adding step: " +:+ error_text response) st1)) ;;
    ret (set_loading false st2).

Definition handleEdit (st : State) : M B State :=
  if negb (str_truthy (trim (sf_name (formData st)))) then
    ret (set_error "Step name is required" st)
  else if negb (truthy (sf_product_id (formData st))) then
    ret (set_error "Product is required" st)
  else if negb (truthy (sf_step_number (formData st))) then
    ret (set_error "Step number is required" st)
  else
    let st1 := set_loading true st in
    response <- updateStep (current_id st) (formData st) ;;
    st2 <- (if success response then
              s <- fetchData st1 ;;
              ret (set_showEditModal false s)
            else
              ret (set_error ("Error updating step: " +:+ error_text response) st1)) ;;
    ret (set_loading false st2).

Definition handleDelete (st : State) : M B State :=
  let st1 := set_loading true st in
  response <- deleteStep (current_id st) ;;
  st2 <- (if success response then
            s <- fetchData st1 ;;
            ret (set_showDeleteModal false s)
          else
            ret (set_error ("Error deleting step: " +:+ error_text response) st1)) ;;
  ret (set_loading false st2).

(** A click on the Add modal's submit button: a disabled button runs no
    handler. *)
Definition clickAdd (st : State) : M B State :=
  if addDisabled st then ret st else handleAdd st.

(** A click on the Edit modal's submit button. *)
Definition clickEdit (st : State) : M B State :=
  if editDisabled st then ret st else handleEdit st.

(** The three writes of the screen. *)
Definition write (m : Mutation) (st : State) : M B State :=
  match m with
  | Create => handleAdd st
  | Update => handleEdit st
  | Delete => handleDelete st
  end.

(** The write goes through: its form is in order (a delete has none) and
    the gateway function reports success. *)
Definition accepted (m : Mutation) (st : State) (w : World B) : bool :=
  match m with
  | Create => form_ok st && success (fst (createStep (formData st) w))
  | Update => form_ok st && success (fst (updateStep (current_id st) (formData st) w))
  | Delete => success (fst (deleteStep (current_id st) w))
  end.

(** The world the refresh starts from: the one the gateway function of the
    write leaves. *)
Definition after_write (m : Mutation) (st : State) (w : World B) : World B :=
  match m with
  | Create => snd (createStep (formData st) w)
  | Update => snd (updateStep (current_id st) (formData st) w)
  | Delete => snd (deleteStep (current_id st) w)
  end.

End Handlers.

End Steps.

(* ===================================================================== *)
(** ** pages/ImageManagerPage.js                                         *)
(* ===================================================================== *)

Module ImageManagerPage.

(** The page state, one field per [useState]. *)
Record State := {
  companies : list Company;
  selectedCompany : string;
  images : list Image;
  products : list Product;
  loading : bool;
  message : string }.

Definition set_companies (v : list Company) (st : State) : State :=
  {| companies := v; selectedCompany := selectedCompany st;
     images := images st; products := products st; loading := loading st;
     message := message st |}.

Definition set_selectedCompany (v : string) (st : State) : State :=
  {| companies := companies st; selectedCompany := v; images := images st;
     products := products st; loading := loading st; message := message st |}.

Definition set_images (v : list Image) (st : State) : State :=
  {| companies := companies st; selectedCompany := selectedCompany st;
     images := v; products := products st; loading := loading st;
     message := message st |}.

Definition set_products (v : list Product) (st : State) : State :=
  {| companies := companies st; selectedCompany := selectedCompany st;
     images := images st; products := v; loading := loading st;
     message := message st |}.

Definition set_loading (v : bool) (st : State) : State :=
  {| companies := companies st; selectedCompany := selectedCompany st;
     images := images st; products := products st; loading := v;
     message := message st |}.

Definition set_message (v : string) (st : State) : State :=
  {| companies := companies st; selectedCompany := selectedCompany st;
     images := images st; products := products st; loading := loading st;
     message := v |}.

Definition initial : State :=
  {| companies := []; selectedCompany := ""; images := []; products := [];
     loading := false; message := "" |}.

(** [String(p.company_id) === String(selectedCompany)] *)
Definition of_company (selected : string) (p : Product) : bool :=
  String.eqb (pretty (p_company_id p)) selected.

Section Handlers.
Context {B : Backend}.

(** [auth.token] of the session the page renders under. *)
Variable token : Bearer.

(** The effect run on mount. *)
Definition fetchCompanies (st : State) : M B State :=
  o <- axios (GetCompaniesAs token) ;;
  match o with
  | Resolved d => ret (set_companies d st)
  | Rejected _ => ret (set_message "Failed to load companies." st)
  end.

(** The effect run when [selectedCompany] changes. *)
Definition fetchData (st : State) : M B State :=
  if negb (str_truthy (selectedCompany st)) then ret st
  else
    let st := set_loading true st in
    imgRes <- axios (GetCompanyImages (selectedCompany st) token) ;;
    prodRes <- axios (GetProductsAs token) ;;
    let st :=
      match imgRes, prodRes with
      | Resolved imgs, Resolved prods =>
          set_products (List.filter (of_company (selectedCompany st)) prods)
            (set_images imgs st)
      | _, _ => set_message "Failed to load images/products." st
      end in
    ret (set_loading false st).

(** [handleDelete(id)]; [confirmed] is the answer to [window.confirm]. *)
Definition handleDelete (id : Z) (confirmed : bool) (st : State) : M B State :=
  if negb confirmed then ret st
  else
    o <- axios (DeleteImage id token) ;;
    match o with
    | Resolved _ =>
        ret (set_images (List.filter (fun img => negb (img_id img =? id)) (images st)) st)
    | Rejected _ => ret (set_message "Failed to delete image." st)
    end.

Definition refreshImages (st : State) : M B State :=
  if negb (str_truthy (selectedCompany st)) then ret st
  else
    o <- axios (GetCompanyImages (selectedCompany st) token) ;;
    match o with
    | Resolved d => ret (set_images d st)
    | Rejected _ => ret (set_message "Failed to refresh images." st)
    end.

(** [handleDownloadAll]; the success message is cleared by a timer three
    seconds later, which is not part of this step. *)
Definition handleDownloadAll (st : State) : M B State :=
  let st := set_message "Preparing download..." st in
  result <- Api.downloadAllImages ;;
  if Api.success result then ret (set_message "Download started successfully!" st)
  else ret (set_message ("Download failed: " +:+ error_text result) st).

End Handlers.

End ImageManagerPage.

(* ===================================================================== *)
(** ** components/CaptureImage.js                                        *)
(* ===================================================================== *)

Module CaptureImage.

(** The widget state, one field per [useState]. [imgSrc] is the captured data URL, or null. *)
Record State := {
  products : list Product;
  productId : string;
  imgSrc : option string;
  uploading : bool;
  message : string }.

Definition set_products (v : list Product) (st : State) : State :=
  {| products := v; productId := productId st; imgSrc := imgSrc st;
     uploading := uploading st; message := message st |}.

Definition set_productId (v : string) (st : State) : State :=
  {| products := products st; productId := v; imgSrc := imgSrc st;
     uploading := uploading st; message := message st |}.

Definition set_imgSrc (v : option string) (st : State) : State :=
  {| products := products st; productId := productId st; imgSrc := v;
     uploading := uploading st; message := message st |}.

Definition set_uploading (v : bool) (st : State) : State :=
  {| products := products st; productId := productId st; imgSrc := imgSrc st;
     uploading := v; message := message st |}.

Definition set_message (v : string) (st : State) : State :=
  {| products := products st; productId := productId st; imgSrc := imgSrc st;
     uploading := uploading st; message := v |}.

Definition initial : State :=
  {| products := []; productId := ""; imgSrc := None; uploading := false;
     message := "" |}.

(** [!imgSrc] *)
Definition no_image (st : State) : bool :=
  match imgSrc st with
  | Some s => negb (str_truthy s)
  | None => true
  end.

(** [err.response && err.response.data && err.response.data.error]: the
    server's own error text, when it sent a non-empty one. *)
Definition server_error (err : JsError) : option string :=
  match response_error err with
  | Some s => if str_truthy s then Some s else None
  | None => None
  end.

(** [err.message && err.message.toLowerCase().includes("network")] *)
Definition mentions_network (err : JsError) : bool :=
  match e_message err with
  | Some m => str_truthy m && includes (toLowerCase m) "network"
  | None => false
  end.

Section Handlers.
Context {B : Backend} {Parent : Type}.

(** The props: the session token and the optional callback, which acts on
    the state of the component that passed it. *)
Variable token : Bearer.
Variable onImageUploaded : option (Parent -> M B Parent).

(** [if (onImageUploaded) onImageUploaded()] *)
Definition notify (p : Parent) : M B Parent :=
  match onImageUploaded with
  | Some callback => callback p
  | None => ret p
  end.

(** The [catch] block of [handleUpload]. *)
Definition uploadFailed (err : JsError) (st : State) (p : Parent) : M B (State * Parent) :=
  match server_error err with
  | Some e => ret (set_message ("Upload failed: " +:+ e) st, p)
  | None =>
      if mentions_network err then
        let st :=
          set_imgSrc None
            (set_message "Image uploaded successfully! (network error, but likely succeeded)" st) in
        p' <- notify p ;;
        ret (st, p')
      else ret (set_message "Upload failed (network or unknown error)." st, p)
  end.

Definition handleUpload (st : State) (p : Parent) : M B (State * Parent) :=
  if no_image st || negb (str_truthy (productId st)) then
    ret (set_message "Please capture an image and select a product." st, p)
  else if uploading st then ret (st, p)
  else
    let st := set_message "" (set_uploading true st) in
    res <- axios (FetchDataUrl (default "" (imgSrc st))) ;;
    r <- match res with
         | Resolved blob =>
             o <- axios (PostImage blob (productId st) token) ;;
             match o with
             | Resolved _ =>
                 let st := set_imgSrc None (set_message "Image uploaded successfully!" st) in
                 p' <- notify p ;;
                 ret (st, p')
             | Rejected err => uploadFailed err st p
             end
         | Rejected err => uploadFailed err st p
         end ;;
    ret (set_uploading false (fst r), snd r).

(** The effect that loads the selectable products. *)
Definition fetchData (selectedCompany : string) (st : State) : M B State :=
  o <- axios (GetProductsAs token) ;;
  match o with
  | Resolved d =>
      let filteredProducts :=
        if str_truthy selectedCompany
        then List.filter (ImageManagerPage.of_company selectedCompany) d
        else [] in
      ret (set_productId "" (set_products filteredProducts st))
  | Rejected _ => ret (set_message "Failed to load products." st)
  end.

End Handlers.

End CaptureImage.

(* ===================================================================== *)
(** ** components/ProjectCreator.js: the single-flight project creation  *)
(* ===================================================================== *)

Module ProjectCreator.

(** A row of [/label-studio/existing-projects]. *)
Record ProjectRow := {
  product_id : Z;
  project_name : string;
  has_existing_project : bool;
  has_classes : bool }.

(** A continuation parked at an [await]: [createProject] waiting for its
    POST (with the index of the abort controller whose signal it passed and
    its request id), or [fetchProducts] waiting for its GET, on behalf of
    [createProject] or on its own. *)
Inductive Suspended :=
| AwaitCreate (signal : nat) (requestId : string)
| AwaitRefresh (in_create : bool).

(** A request that left the browser. *)
Inductive Sent :=
| PostCreateProject (product : JsVal) (requestId : string) (signal : nat)
| GetExistingProjects.

(** The component: its [useState] cells, its two refs, the [loading] value captured by the current [createProject] closure (the callback is rebuilt only when [selectedProduct] changes), and around it the abort controllers created so far with their [aborted] flags, the parked continuations, the requests sent and the console. *)
Record State := {
  products : list ProjectRow;
  selectedProduct : string;
  loading : bool;
  success : string;
  error : string;
  isCreatingRef : bool;
  abortControllerRef : option nat;
  closure_loading : bool;
  controllers : list bool;
  pending : list Suspended;
  outbox : list Sent;
  console : list string }.

Definition set_products (v : list ProjectRow) (st : State) : State :=
  {| products := v; selectedProduct := selectedProduct st;
     loading := loading st; success := success st; error := error st;
     isCreatingRef := isCreatingRef st;
     abortControllerRef := abortControllerRef st;
     closure_loading := closure_loading st; controllers := controllers st;
     pending := pending st; outbox := outbox st; console := console st |}.

Definition set_selectedProduct (v : string) (st : State) : State :=
  {| products := products st; selectedProduct := v; loading := loading st;
     success := success st; error := error st;
     isCreatingRef := isCreatingRef st;
     abortControllerRef := abortControllerRef st;
     closure_loading := closure_loading st; controllers := controllers st;
     pending := pending st; outbox := outbox st; console := console st |}.

Definition set_loading (v : bool) (st : State) : State :=
  {| products := products st; selectedProduct := selectedProduct st;
     loading := v; success := success st; error := error st;
     isCreatingRef := isCreatingRef st;
     abortControllerRef := abortControllerRef st;
     closure_loading := closure_loading st; controllers := controllers st;
     pending := pending st; outbox := outbox st; console := console st |}.

Definition set_success (v : string) (st : State) : State :=
  {| products := products st; selectedProduct := selectedProduct st;
     loading := loading st; success := v; error := error st;
     isCreatingRef := isCreatingRef st;
     abortControllerRef := abortControllerRef st;
     closure_loading := closure_loading st; controllers := controllers st;
     pending := pending st; outbox := outbox st; console := console st |}.

Definition set_error (v : string) (st : State) : State :=
  {| products := products st; selectedProduct := selectedProduct st;
     loading := loading st; success := success st; error := v;
     isCreatingRef := isCreatingRef st;
     abortControllerRef := abortControllerRef st;
     closure_loading := closure_loading st; controllers := controllers st;
     pending := pending st; outbox := outbox st; console := console st |}.

Definition set_isCreatingRef (v : bool) (st : State) : State :=
  {| products := products st; selectedProduct := selectedProduct st;
     loading := loading st; success := success st; error := error st;
     isCreatingRef := v; abortControllerRef := abortControllerRef st;
     closure_loading := closure_loading st; controllers := controllers st;
     pending := pending st; outbox := outbox st; console := console st |}.

Definition set_abortControllerRef (v : option nat) (st : State) : State :=
  {| products := products st; selectedProduct := selectedProduct st;
     loading := loading st; success := success st; error := error st;
     isCreatingRef := isCreatingRef st; abortControllerRef := v;
     closure_loading := closure_loading st; controllers := controllers st;
     pending := pending st; outbox := outbox st; console := console st |}.

Definition set_closure_loading (v : bool) (st : State) : State :=
  {| products := products st; selectedProduct := selectedProduct st;
     loading := loading st; success := success st; error := error st;
     isCreatingRef := isCreatingRef st;
     abortControllerRef := abortControllerRef st; closure_loading := v;
     controllers := controllers st; pending := pending st;
     outbox := outbox st; console := console st |}.

Definition set_controllers (v : list bool) (st : State) : State :=
  {| products := products st; selectedProduct := selectedProduct st;
     loading := loading st; success := success st; error := error st;
     isCreatingRef := isCreatingRef st;
     abortControllerRef := abortControllerRef st;
     closure_loading := closure_loading st; controllers := v;
     pending := pending st; outbox := outbox st; console := console st |}.

Definition set_pending (v : list Suspended) (st : State) : State :=
  {| products := products st; selectedProduct := selectedProduct st;
     loading := loading st; success := success st; error := error st;
     isCreatingRef := isCreatingRef st;
     abortControllerRef := abortControllerRef st;
     closure_loading := closure_loading st; controllers := controllers st;
     pending := v; outbox := outbox st; console := console st |}.

Definition set_outbox (v : list Sent) (st : State) : State :=
  {| products := products st; selectedProduct := selectedProduct st;
     loading := loading st; success := success st; error := error st;
     isCreatingRef := isCreatingRef st;
     abortControllerRef := abortControllerRef st;
     closure_loading := closure_loading st; controllers := controllers st;
     pending := pending st; outbox := v; console := console st |}.

Definition set_console (v : list string) (st : State) : State :=
  {| products := products st; selectedProduct := selectedProduct st;
     loading := loading st; success := success st; error := error st;
     isCreatingRef := isCreatingRef st;
     abortControllerRef := abortControllerRef st;
     closure_loading := closure_loading st; controllers := controllers st;
     pending := pending st; outbox := outbox st; console := v |}.

Definition initial : State :=
  {| products := []; selectedProduct := ""; loading := false; success := "";
     error := ""; isCreatingRef := false; abortControllerRef := None;
     closure_loading := false; controllers := []; pending := [];
     outbox := []; console := [] |}.

(** [controller.abort()] *)
Definition abort (c : nat) (st : State) : State :=
  set_controllers (<[c := true]> (controllers st)) st.

(** [abortControllerRef.current.signal.aborted]; [None] when the ref holds
    null, where the read throws. *)
Definition current_aborted (st : State) : option bool :=
  match abortControllerRef st with
  | Some c => Some (default false (controllers st !! c))
  | None => None
  end.

(** The [finally] block of [createProject]. *)
Definition finally (st : State) : State :=
  set_abortControllerRef None (set_isCreatingRef false (set_loading false st)).

(** [fetchProducts] up to its [await]. *)
Definition fetchProducts (in_create : bool) (st : State) : State :=
  set_pending (pending st ++ [AwaitRefresh in_create])
    (set_outbox (outbox st ++ [GetExistingProjects]) st).

Definition created_message (title : string) : string :=
  "Project " +:+ String dquote (title +:+ String dquote " created successfully!").

(** [createProject] up to its [await]. *)
Definition createProject (requestId : string) (st : State) : State :=
  if negb (str_truthy (selectedProduct st)) then
    set_error "Please select a product" st
  else if closure_loading st || isCreatingRef st then
    set_console (console st ++ ["Request already in progress, skipping..."]) st
  else
    let st :=
      match abortControllerRef st with
      | Some c => abort c st
      | None => st
      end in
    let signal := length (controllers st) in
    let st := set_abortControllerRef (Some signal)
                (set_controllers (controllers st ++ [false]) st) in
    let st := set_isCreatingRef true st in
    let productId := selectedProduct st in
    let st := set_success "" (set_error "" (set_loading true st)) in
    let st :=
      set_console
        (console st ++ ["[ProjectCreator] Creating project with request ID: "
                        +:+ requestId]) st in
    set_pending (pending st ++ [AwaitCreate signal requestId])
      (set_outbox
         (outbox st ++ [PostCreateProject (parseInt (VStr productId) RadixDefault)
                          requestId signal]) st).

(** [createProject] resumed with the response to its POST. *)
Definition createResolved (title : string) (st : State) : State :=
  match current_aborted st with
  | Some false =>
      fetchProducts true
        (set_selectedProduct "" (set_success (created_message title) st))
  | Some true => finally st
  | None => finally (set_error "Failed to create project" st)
  end.

(** [createProject] resumed with a rejection. *)
Definition createRejected (err : JsError) (st : State) : State :=
  if String.eqb (e_name err) "AbortError" then
    finally (set_console (console st ++ ["Request was aborted"]) st)
  else
    finally (set_error (or_default (response_error err) "Failed to create project") st).

(** [fetchProducts] resumed, and [createProject] after it when it was the
    caller. *)
Definition refreshDone (in_create : bool) (rows : option (list ProjectRow))
    (st : State) : State :=
  let st :=
    match rows with
    | Some r => set_products r st
    | None => set_error "Failed to fetch products" st
    end in
  if in_create then finally st else st.

(** What the event loop can deliver. *)
Inductive Event :=
| Select (value : string)
| Invoke (requestId : string)
| Refresh
| CreateResolved (k : nat) (title : string)
| CreateRejected (k : nat) (err : JsError)
| RefreshResolved (k : nat) (rows : list ProjectRow)
| RefreshRejected (k : nat)
| Unmount.

(** The handler an event runs, to its end or to its next [await]. An answer
    addressed to a continuation that is not parked there is dropped. *)
Definition handle (ev : Event) (st : State) : State :=
  match ev with
  | Select v => set_selectedProduct v st
  | Invoke rid => createProject rid st
  | Refresh => fetchProducts false st
  | CreateResolved k title =>
      match pending st !! k with
      | Some (AwaitCreate _ _) =>
          createResolved title (set_pending (delete k (pending st)) st)
      | _ => st
      end
  | CreateRejected k err =>
      match pending st !! k with
      | Some (AwaitCreate _ _) =>
          createRejected err (set_pending (delete k (pending st)) st)
      | _ => st
      end
  | RefreshResolved k rows =>
      match pending st !! k with
      | Some (AwaitRefresh c) =>
          refreshDone c (Some rows) (set_pending (delete k (pending st)) st)
      | _ => st
      end
  | RefreshRejected k =>
      match pending st !! k with
      | Some (AwaitRefresh c) =>
          refreshDone c None (set_pending (delete k (pending st)) st)
      | _ => st
      end
  | Unmount =>
      match abortControllerRef st with
      | Some c => abort c st
      | None => st
      end
  end.

(** The render that follows: [useCallback(..., [selectedProduct])] keeps the
    old closure unless [selectedProduct] changed. *)
Definition rerender (before : State) (st : State) : State :=
  if String.eqb (selectedProduct before) (selectedProduct st) then st
  else set_closure_loading (loading st) st.

Definition step (ev : Event) (st : State) : State := rerender st (handle ev st).

Definition run (evs : list Event) (st : State) : State :=
  fold_left (fun s ev => step ev s) evs st.

(** A parked continuation that belongs to a creation: its POST not yet
    answered, or the refresh that [createProject] awaits before its
    [finally]. *)
Definition counts (s : Suspended) : bool :=
  match s with
  | AwaitCreate _ _ => true
  | AwaitRefresh c => c
  end.

(** The creations under way. *)
Definition in_flight (st : State) : nat :=
  length (List.filter counts (pending st)).

Definition is_unmount (ev : Event) : bool :=
  match ev with Unmount => true | _ => false end.

End ProjectCreator.

(* ===================================================================== *)
(** ** Two concrete backends, to run the handlers on                     *)
(* ===================================================================== *)

Module Demo.

(** The rows an in-memory backend holds, and the next serial id. *)
Record Rows := {
  r_companies : list Company;
  r_products : list Product;
  r_classes : list ClassCount;
  r_images : list Image;
  r_next : Z }.

(** An HTTP error answer with a JSON body [{ message }]. *)
Definition http_error (status : Z) (msg : string) : JsError :=
  {| e_name := "AxiosError";
     e_message := Some ("Request failed with status code " +:+ pretty status);
     e_response := Some {| er_status := status;
                           er_data := Some {| ed_message := Some msg;
                                              ed_error := None |} |} |}.

(** The error axios raises when no answer arrives. *)
Definition network_error : JsError :=
  {| e_name := "AxiosError"; e_message := Some "Network Error"; e_response := None |}.

Definition product_of (f : ProductForm) (id : Z) : Product :=
  {| p_id := id; p_name := pf_name f;
     p_company_id := match pf_company_id f with VNum z => z | _ => 0 end;
     p_image_url := if str_truthy (pf_image_url f) then Some (pf_image_url f) else None |}.

Definition class_of (f : ClassCountForm) (id : Z) : ClassCount :=
  {| cc_id := id; cc_class := ccf_class f;
     cc_product_id := match ccf_product_id f with VNum z => z | _ => 0 end |}.

Definition has_id {A} (key : A -> Z) (id : option Z) (x : A) : bool :=
  match id with
  | Some i => key x =? i
  | None => false
  end.

Definition company_products (rows : Rows) (company : string) : list Z :=
  map p_id (List.filter (ImageManagerPage.of_company company) (r_products rows)).

(** Reads leave the rows as they are; a create appends a row under the
    next id; an update rewrites the row; a delete removes it together with
    the rows that refer to it. *)
Definition answer (r : Req) (rows : Rows) : Outcome (Resp r) * Rows :=
  match r return Outcome (Resp r) * Rows with
  | GetCompanies | GetCompaniesAs _ => (Resolved (r_companies rows), rows)
  | PostCompany f =>
      let c := {| c_id := r_next rows; c_name := cf_name f |} in
      (Resolved c,
       {| r_companies := r_companies rows ++ [c]; r_products := r_products rows;
          r_classes := r_classes rows; r_images := r_images rows;
          r_next := r_next rows + 1 |})
  | PutCompany id f =>
      match List.find (has_id c_id id) (r_companies rows) with
      | Some old =>
          let c := {| c_id := c_id old; c_name := cf_name f |} in
          (Resolved c,
           {| r_companies :=
                map (fun x => if has_id c_id id x then c else x) (r_companies rows);
              r_products := r_products rows; r_classes := r_classes rows;
              r_images := r_images rows; r_next := r_next rows |})
      | None => (Rejected (http_error 404 "Company not found"), rows)
      end
  | DeleteCompany id =>
      let gone := List.filter (fun p => has_id p_company_id id p) (r_products rows) in
      let dead p := existsb (fun q => p_id q =? p) gone in
      (Resolved tt,
       {| r_companies := List.filter (fun x => negb (has_id c_id id x)) (r_companies rows);
          r_products := List.filter (fun p => negb (has_id p_company_id id p)) (r_products rows);
          r_classes := List.filter (fun c => negb (dead (cc_product_id c))) (r_classes rows);
          r_images := List.filter (fun i => negb (dead (img_product_id i))) (r_images rows);
          r_next := r_next rows |})
  | GetProducts | GetProductsAs _ => (Resolved (r_products rows), rows)
  | PostProduct f =>
      let p := product_of f (r_next rows) in
      (Resolved p,
       {| r_companies := r_companies rows; r_products := r_products rows ++ [p];
          r_classes := r_classes rows; r_images := r_images rows;
          r_next := r_next rows + 1 |})
  | PutProduct id f =>
      match List.find (has_id p_id id) (r_products rows) with
      | Some old =>
          let p := product_of f (p_id old) in
          (Resolved p,
           {| r_companies := r_companies rows;
              r_products := map (fun x => if has_id p_id id x then p else x) (r_products rows);
              r_classes := r_classes rows; r_images := r_images rows;
              r_next := r_next rows |})
      | None => (Rejected (http_error 404 "Product not found"), rows)
      end
  | DeleteProduct id =>
      (Resolved tt,
       {| r_companies := r_companies rows;
          r_products := List.filter (fun x => negb (has_id p_id id x)) (r_products rows);
          r_classes := List.filter (fun c => negb (has_id cc_product_id id c)) (r_classes rows);
          r_images := List.filter (fun i => negb (has_id img_product_id id i)) (r_images rows);
          r_next := r_next rows |})
  | GetClassCounts => (Resolved (r_classes rows), rows)
  | PostClassCount f =>
      let c := class_of f (r_next rows) in
      (Resolved c,
       {| r_companies := r_companies rows; r_products := r_products rows;
          r_classes := r_classes rows ++ [c]; r_images := r_images rows;
          r_next := r_next rows + 1 |})
  | PutClassCount id f =>
      match List.find (has_id cc_id id) (r_classes rows) with
      | Some old =>
          let c := class_of f (cc_id old) in
          (Resolved c,
           {| r_companies := r_companies rows; r_products := r_products rows;
              r_classes := map (fun x => if has_id cc_id id x then c else x) (r_classes rows);
              r_images := r_images rows; r_next := r_next rows |})
      | None => (Rejected (http_error 404 "Class not found"), rows)
      end
  | DeleteClassCount id =>
      (Resolved tt,
       {| r_companies := r_companies rows; r_products := r_products rows;
          r_classes := List.filter (fun x => negb (has_id cc_id id x)) (r_classes rows);
          r_images := r_images rows; r_next := r_next rows |})
  | GetDownloadAll _ =>
      (Resolved {| dl_blob := "PK";
                   dl_content_disposition := Some "attachment; filename=images.zip" |},
       rows)
  | PostLogin c =>
      if String.eqb (cred_username c) "alice" && String.eqb (cred_password c) "secret"
      then (Resolved {| access_token := "T"; user_id := 1; ld_username := "alice" |}, rows)
      else (Rejected (http_error 401 "Invalid username or password"), rows)
  | PostRegister u =>
      (Resolved {| rd_message := Some "User registered successfully" |}, rows)
  | GetCompanyImages company _ =>
      (Resolved (List.filter
                   (fun i => existsb (fun p => p =? img_product_id i)
                               (company_products rows company))
                   (r_images rows)), rows)
  | DeleteImage id _ =>
      (Resolved tt,
       {| r_companies := r_companies rows; r_products := r_products rows;
          r_classes := r_classes rows;
          r_images := List.filter (fun i => negb (img_id i =? id)) (r_images rows);
          r_next := r_next rows |})
  | FetchDataUrl src => (Resolved src, rows)
  | PostImage blob product _ =>
      let i := {| img_id := r_next rows;
                  img_product_id :=
                    match parseInt (VStr product) Radix10 with VNum z => z | _ => 0 end;
                  img_filename := "capture.jpg"; img_access_url := None |} in
      (Resolved tt,
       {| r_companies := r_companies rows; r_products := r_products rows;
          r_classes := r_classes rows; r_images := r_images rows ++ [i];
          r_next := r_next rows + 1 |})
  end.

Definition memory : Backend := {| BState := Rows; respond := answer |}.

(** A backend out of reach: every request is rejected with the same error. *)
Definition refusing (e : JsError) : Backend :=
  {| BState := unit; respond := fun r s => (Rejected e, s) |}.

(** A backend that accepts the upload of an image and then loses the
    answer: the data URL is read, every request to the server is rejected. *)
Definition lossy (e : JsError) : Backend :=
  {| BState := unit;
     respond := fun r s =>
       match r return Outcome (Resp r) * unit with
       | FetchDataUrl src => (Resolved src, s)
       | _ => (Rejected e, s)
       end |}.

(** A fresh page: nothing sent, nothing saved yet. *)
Definition world_of (B : Backend) (s : BState B) (storage : gmap string string) : World B :=
  {| server := s; calls := []; localStorage := storage; saved := [] |}.

Definition world (rows : Rows) (storage : gmap string string) : World memory :=
  world_of memory rows storage.

Definition acme : Company := {| c_id := 1; c_name := "Acme" |}.
Definition widget : Product :=
  {| p_id := 2; p_name := "Widget"; p_company_id := 1; p_image_url := None |}.
Definition photo (id : Z) : Image :=
  {| img_id := id; img_product_id := 2; img_filename := "capture.jpg";
     img_access_url := None |}.

(** One company with one product and three images of it. *)
Definition rows0 : Rows :=
  {| r_companies := [acme]; r_products := [widget]; r_classes := [];
     r_images := [photo 3; photo 4; photo 5]; r_next := 6 |}.

End Demo.

(* ===================================================================== *)
(** ** The vocabulary of the properties                                 *)
(* ===================================================================== *)

(** A step of product [p] other than the excluded one already holds [n]. *)
Definition taken (steps : list Step) (p : Z) (excludeStepId : JsVal) (n : Z) : Prop :=
  exists s, In s steps /\ s_product_id s = p
            /\ strict_eq (VNum (s_id s)) excludeStepId = false
            /\ s_step_number s = n.

(** The thirteen functions [services/api.js] exports, as one family. *)
Inductive Operation :=
| CallGetCompanies
| CallCreateCompany (company : CompanyForm)
| CallUpdateCompany (id : option Z) (company : CompanyForm)
| CallDeleteCompany (id : option Z)
| CallGetProducts
| CallCreateProduct (product : ProductForm)
| CallUpdateProduct (id : option Z) (product : ProductForm)
| CallDeleteProduct (id : option Z)
| CallGetClassCounts
| CallCreateClassCount (classCount : ClassCountForm)
| CallUpdateClassCount (id : option Z) (classCount : ClassCountForm)
| CallDeleteClassCount (id : option Z)
| CallDownloadAllImages.




(** The fixed message each operation falls back to. *)
Definition fallback (op : Operation) : string :=
  match op with
  | CallGetCompanies => "Failed to fetch companies"
  | CallCreateCompany _ => "Failed to create company"
  | CallUpdateCompany _ _ => "Failed to update company"
  | CallDeleteCompany _ => "Failed to delete company"
  | CallGetProducts => "Failed to fetch products"
  | CallCreateProduct _ => "Failed to create product"
  | CallUpdateProduct _ _ => "Failed to update product"
  | CallDeleteProduct _ => "Failed to delete product"
  | CallGetClassCounts => "Failed to fetch classes"
  | CallCreateClassCount _ => "Failed to create class"
  | CallUpdateClassCount _ _ => "Failed to update class"
  | CallDeleteClassCount _ => "Failed to delete class"
  | CallDownloadAllImages => "Failed to download images"
  end.


(** A name that is empty once trimmed, and a required foreign key nobody
    chose: the empty string of a fresh form, the NaN that parsing the
    placeholder option gives, or null. *)
Definition blank (s : string) : Prop := trim s = "".

Definition absent (v : JsVal) : Prop := v = VStr "" \/ v = VNaN \/ v = VNull.

(** What the [try] block of [handleUpload] ends with: the error it throws,
    if any, and the world after the requests it made (reading the data URL,
    then posting the image). *)
Definition upload_attempt {B : Backend} (token : Bearer) (st : CaptureImage.State)
    (w : World B) : option JsError * World B :=
  let src := default "" (CaptureImage.imgSrc st) in
  let w1 := sent (FetchDataUrl src) w in
  match fst (respond B (FetchDataUrl src) (server w)) with
  | Rejected e => (Some e, w1)
  | Resolved blob =>
      let post := PostImage blob (CaptureImage.productId st) token in
      match fst (respond B post (server w1)) with
      | Rejected e => (Some e, sent post w1)
      | Resolved _ => (None, sent post w1)
      end
  end.

(** An upload that starts: an image is captured, a product is chosen and no
    upload is running. *)
Definition upload_starts (st : CaptureImage.State) : bool :=
  negb (CaptureImage.no_image st) && str_truthy (CaptureImage.productId st)
  && negb (CaptureImage.uploading st).

(** What holds between events: the ref [isCreatingRef] is set exactly while
    one creation is under way, and with it unset the controller ref holds
    null. *)
Definition settled (st : ProjectCreator.State) : Prop :=
  ProjectCreator.in_flight st = (if ProjectCreator.isCreatingRef st then 1 else 0)%nat
  /\ (ProjectCreator.isCreatingRef st = false ->
      ProjectCreator.abortControllerRef st = None).

(* ===================================================================== *)
(** ** Scenarios: concrete states and inputs to run the client on        *)
(* ===================================================================== *)

(** A product with steps at 1, 3 and 5, and one with all twenty in use. *)
Definition step_at (id product number : Z) : Step :=
  {| s_id := id; s_name := "inspect"; s_product_id := product;
     s_step_number := number |}.

Definition steps_135 : list Step := [step_at 11 7 1; step_at 12 7 3; step_at 13 7 5].

Definition steps_full : list Step :=
  map (fun n => step_at (100 + n) 7 n) (Array_from 20 (fun i => i + 1)).

Definition full_form : Steps.State :=
  Steps.set_formData {| sf_name := "final check"; sf_product_id := VNum 7;
                        sf_step_number := VStr "" |}
    (Steps.set_loading false (Steps.set_steps steps_full Steps.initial)).

(** A decoder that reads one token, expiring at second 100 and issued to
    subject 1, and throws on everything else; and a browser that holds that
    token with the name alice. *)
Definition decoder (t : string) : option AuthContext.JwtPayload :=
  if String.eqb t "jwt-100"
  then Some {| AuthContext.exp := Some (100 # 1); AuthContext.sub := Some 1 |}
  else None.

Definition stored_session : gmap string string :=
  <["token" := "jwt-100"]> (<["username" := "alice"]> ∅).

Definition garbled_session : gmap string string :=
  <["token" := "not-a-jwt"]> (<["username" := "alice"]> ∅).

Definition alice : Credentials := {| cred_username := "alice"; cred_password := "secret" |}.

Definition mallory : Credentials := {| cred_username := "mallory"; cred_password := "guess" |}.

Definition alice_session : AuthContext.Auth :=
  {| AuthContext.loading := false; AuthContext.isAuthenticated := true;
     AuthContext.user := Some {| AuthContext.id := Some 1;
                                 AuthContext.username := Some "alice" |};
     AuthContext.token := Some "T" |}.


(** The Add modal of each screen right after it opens, and after only a
    name was typed. *)
Definition company_unnamed : Companies.State := Companies.handleAddShow Companies.initial.

Definition product_no_company : Products.State :=
  Products.handleChange "name" "Widget" (Products.handleAddShow Products.initial).

Definition class_spaces_only : ClassCounts.State :=
  ClassCounts.handleChange "product_id" "2"
    (ClassCounts.handleChange "class" "   " (ClassCounts.handleAddShow ClassCounts.initial)).

Definition step_no_number : Steps.State :=
  Steps.handleChange "product_id" "2"
    (Steps.handleChange "name" "Weld" (Steps.handleAddShow Steps.initial)).

(** Forms filled in on each screen, and step gateway functions to run the
    step screen with. *)
Definition company_globex : Companies.State :=
  Companies.handleChange "Globex" (Companies.handleAddShow Companies.initial).

Definition product_renamed : Products.State :=
  Products.handleChange "name" "Gadget" (Products.handleEditShow Demo.widget Products.initial).

Definition class_scratch : ClassCounts.State :=
  ClassCounts.handleChange "product_id" "2"
    (ClassCounts.handleChange "class" "scratch"
       (ClassCounts.handleAddShow ClassCounts.initial)).

Definition step_removed : Steps.State :=
  Steps.handleDeleteShow (step_at 12 7 3) (Steps.set_steps steps_135 Steps.initial).

Definition steps_left : list Step := [step_at 11 7 1; step_at 13 7 5].

(** The image manager after it loaded company 1 while that company had
    images 3 and 4; a fifth image is uploaded from elsewhere afterwards. *)
Definition rows_before : Demo.Rows :=
  {| Demo.r_companies := [Demo.acme]; Demo.r_products := [Demo.widget];
     Demo.r_classes := []; Demo.r_images := [Demo.photo 3; Demo.photo 4];
     Demo.r_next := 5 |}.

Definition page_loaded : ImageManagerPage.State :=
  fst (ImageManagerPage.fetchData (Some "T")
         (ImageManagerPage.set_selectedCompany "1" ImageManagerPage.initial)
         (Demo.world rows_before ∅)).

(** A captured image with product 2 chosen; a parent that counts how often
    it was asked to refresh; and an upload the server refuses by name. *)
Definition ready_to_upload : CaptureImage.State :=
  CaptureImage.set_imgSrc (Some "data:image/jpeg;base64,AAAA")
    (CaptureImage.set_productId "2" CaptureImage.initial).

Definition count_refresh {B} : option (nat -> M B nat) :=
  Some (fun n => ret (S n)).

Definition product_gone : JsError :=
  {| e_name := "AxiosError"; e_message := Some "Request failed with status code 404";
     e_response := Some {| er_status := 404;
                           er_data := Some {| ed_message := None;
                                              ed_error := Some "Product not found" |} |} |}.

(** Two clicks on the create button for product 7, then the answers to the
    one request that was sent. *)
Definition two_clicks : list ProjectCreator.Event :=
  [ProjectCreator.Select "7"; ProjectCreator.Invoke "r1"; ProjectCreator.Invoke "r2"].

Definition widget_row : ProjectCreator.ProjectRow :=
  {| ProjectCreator.product_id := 7; ProjectCreator.project_name := "Widget QC";
     ProjectCreator.has_existing_project := true; ProjectCreator.has_classes := true |}.

Definition two_clicks_answered : list ProjectCreator.Event :=
  two_clicks ++ [ProjectCreator.CreateResolved 0 "Widget QC";
                 ProjectCreator.RefreshResolved 0 [widget_row]].

(* ===================================================================== *)
(** * Properties                                                         *)
(* ===================================================================== *)

(** ** The primitives, run on small inputs *)

Example trim_both_ends : trim "  Acme Ltd  " = "Acme Ltd".
Proof. reflexivity. Qed.

Example trim_only_spaces : trim "   " = "".
Proof. reflexivity. Qed.

Example parseInt_option_value :
  parseInt (VStr "12") Radix10 = VNum 12
  /\ parseInt (VStr "") Radix10 = VNaN
  /\ parseInt (VStr " -42px") Radix10 = VNum (-42)
  /\ parseInt (VStr "0x1A") Radix10 = VNum 0
  /\ parseInt (VStr "0x1A") RadixDefault = VNum 26
  /\ parseInt (VNum 7) RadixDefault = VNum 7.
Proof. repeat split. Qed.

Example network_error_is_recognised :
  includes (toLowerCase "Network Error") "network" = true
  /\ includes (toLowerCase "timeout of 1000ms exceeded") "network" = false.
Proof. split; reflexivity. Qed.

Example filename_from_header :
  Api.download_filename (Some "attachment; filename=qc_images.zip") = "qc_images.zip"
  /\ Api.download_filename (Some ("attachment; filename=" +:+ String dquote ("a b.zip" +:+ String dquote "")))
     = "a b.zip"
  /\ Api.download_filename (Some "attachment") = "all_images.zip"
  /\ Api.download_filename None = "all_images.zip".
Proof. repeat split. Qed.

Example download_is_saved :
  saved (snd (Api.downloadAllImages (Demo.world Demo.rows0 stored_session))) = ["images.zip"]
  /\ calls (snd (Api.downloadAllImages (Demo.world Demo.rows0 stored_session)))
     = [GetDownloadAll (Some "jwt-100")].
Proof. split; vm_compute; reflexivity. Qed.

(** ** Step numbers *)

Lemma Array_from_20 :
  Array_from 20 (fun i => i + 1) =
  [1; 2; 3; 4; 5; 6; 7; 8; 9; 10; 11; 12; 13; 14; 15; 16; 17; 18; 19; 20].
Proof. reflexivity. Qed.

Lemma in_Array_from_20 (n : Z) :
  In n (Array_from 20 (fun i => i + 1)) <-> 1 <= n <= 20.
Proof.
  rewrite Array_from_20. split.
  - simpl. intros H. repeat (destruct H as [H | H]; [lia |]). contradiction.
  - intros H. simpl.
    assert (n = 1 \/ n = 2 \/ n = 3 \/ n = 4 \/ n = 5 \/ n = 6 \/ n = 7 \/ n = 8
            \/ n = 9 \/ n = 10 \/ n = 11 \/ n = 12 \/ n = 13 \/ n = 14 \/ n = 15
            \/ n = 16 \/ n = 17 \/ n = 18 \/ n = 19 \/ n = 20) as Hn by lia.
    repeat (destruct Hn as [Hn | Hn]; [subst n; tauto |]). subst n. tauto.
Qed.

Lemma includes_num_In (xs : list Z) (x : Z) :
  includes_num xs x = true <-> In x xs.
Proof.
  unfold includes_num. rewrite existsb_exists. split.
  - intros (y & Hy & E). apply Z.eqb_eq in E. now subst.
  - intros H. exists x. split; [assumption | apply Z.eqb_refl].
Qed.

Lemma used_numbers_taken (steps : list Step) (p : Z) (ex : JsVal) (n : Z) :
  In n (map s_step_number
          (List.filter
             (fun step => strict_eq (VNum (s_product_id step)) (VNum p)
                          && negb (strict_eq (VNum (s_id step)) ex)) steps))
  <-> taken steps p ex n.
Proof.
  rewrite in_map_iff. unfold taken. split.
  - intros (s & Hn & Hs). apply filter_In in Hs as [Hin Hb].
    apply andb_true_iff in Hb as [Hp Hx]. simpl in Hp. apply Z.eqb_eq in Hp.
    apply negb_true_iff in Hx. exists s. tauto.
  - intros (s & Hin & Hp & Hx & Hn). exists s. split; [assumption |].
    apply filter_In. split; [assumption |].
    apply andb_true_iff. split.
    + simpl. now apply Z.eqb_eq.
    + now apply negb_true_iff.
Qed.

Lemma available_spec (steps : list Step) (p : Z) (ex : JsVal) (n : Z) :
  p <> 0 ->
  In n (Steps.getAvailableStepNumbers steps (VNum p) ex)
  <-> 1 <= n <= 20 /\ ~ taken steps p ex n.
Proof.
  intros Hp. unfold Steps.getAvailableStepNumbers.
  assert (truthy (VNum p) = true) as ->.
  { simpl. apply negb_true_iff. now apply Z.eqb_neq. }
  simpl negb. cbv iota. simpl parseInt.
  rewrite filter_In, in_Array_from_20, negb_true_iff.
  rewrite <- used_numbers_taken, <- includes_num_In.
  destruct (includes_num _ n); intuition congruence.
Qed.

Lemma available_no_product (steps : list Step) (productId ex : JsVal) :
  truthy productId = false -> Steps.getAvailableStepNumbers steps productId ex = [].
Proof. intros H. unfold Steps.getAvailableStepNumbers. now rewrite H. Qed.

(** The answer is the ascending list of the free numbers: two predicates
    that agree on 1..20 select the same sublist. *)
Lemma available_as_filter (steps : list Step) (p : Z) (ex : JsVal) (keep : Z -> bool) :
  p <> 0 ->
  (forall n, 1 <= n <= 20 -> keep n = true <-> ~ taken steps p ex n) ->
  Steps.getAvailableStepNumbers steps (VNum p) ex =
  List.filter keep (Array_from 20 (fun i => i + 1)).
Proof.
  intros Hp Hkeep. unfold Steps.getAvailableStepNumbers.
  assert (truthy (VNum p) = true) as ->.
  { simpl. apply negb_true_iff. now apply Z.eqb_neq. }
  simpl negb. cbv iota. simpl parseInt.
  apply filter_ext_in. intros n Hn. apply in_Array_from_20 in Hn.
  specialize (Hkeep n Hn).
  rewrite <- used_numbers_taken, <- includes_num_In in Hkeep.
  destruct (includes_num _ n), (keep n); simpl; try reflexivity.
  - exfalso. apply Hkeep; reflexivity.
  - assert (true = true) by reflexivity. intuition congruence.
Qed.

Lemma taken_no_exclusion (steps : list Step) (p n : Z) :
  taken steps p VNull n <->
  exists s, In s steps /\ s_product_id s = p /\ s_step_number s = n.
Proof.
  unfold taken. split.
  - intros (s & H1 & H2 & _ & H4). eauto.
  - intros (s & H1 & H2 & H4). exists s. simpl. tauto.
Qed.

Lemma all_taken_no_options (steps : list Step) (p : Z) (ex : JsVal) :
  p <> 0 ->
  (forall n, 1 <= n <= 20 -> taken steps p ex n) ->
  Steps.getAvailableStepNumbers steps (VNum p) ex = [].
Proof.
  intros Hp Hall.
  destruct (Steps.getAvailableStepNumbers steps (VNum p) ex) as [| n l] eqn:E;
    [reflexivity |].
  assert (In n (Steps.getAvailableStepNumbers steps (VNum p) ex)) as Hin
    by (rewrite E; now left).
  apply available_spec in Hin; [| assumption].
  destruct Hin as [Hr Hfree]. exfalso. apply Hfree. now apply Hall.
Qed.

(** C4. With steps 1, 3 and 5 of a product in use, a new step is offered
    2, 4, 6 and every number from 7 to 20. In general a number is offered
    exactly when it lies in 1..20 and no other step of the product (the one
    being edited left aside) holds it. When all twenty are held, the Add
    modal offers nothing, shows its warning, disables its button, and a
    click changes nothing and sends nothing. *)
Theorem step_numbers_offered :
  (forall (steps : list Step) (p : Z),
      p <> 0 ->
      (forall n, taken steps p VNull n <-> n = 1 \/ n = 3 \/ n = 5) ->
      Steps.getAvailableStepNumbers steps (VNum p) VNull =
      [2; 4; 6; 7; 8; 9; 10; 11; 12; 13; 14; 15; 16; 17; 18; 19; 20])
  /\ (forall (steps : list Step) (p : Z) (excludeStepId : JsVal) (n : Z),
         p <> 0 ->
         In n (Steps.getAvailableStepNumbers steps (VNum p) excludeStepId)
         <-> 1 <= n <= 20 /\ ~ taken steps p excludeStepId n)
  /\ (forall (B : Backend) getSteps createStep (st : Steps.State) (p : Z) (w : World B),
         sf_product_id (Steps.formData st) = VNum p ->
         p <> 0 ->
         (forall n, 1 <= n <= 20 -> taken (Steps.steps st) p VNull n) ->
         Steps.addOptions st = []
         /\ Steps.addWarning st
            = Some "All step positions (1-20) are taken for this product"
         /\ Steps.addDisabled st = true
         /\ Steps.clickAdd getSteps createStep st w = (st, w)).
Proof.
  split; [| split].
  - intros steps p Hp Hused.
    rewrite (available_as_filter steps p VNull
               (fun n => negb ((n =? 1) || (n =? 3) || (n =? 5)))); [reflexivity | assumption |].
    intros n _. rewrite Hused, negb_true_iff, !orb_false_iff, !Z.eqb_neq. lia.
  - intros. now apply available_spec.
  - intros B getSteps createStep st p w Hform Hp Hall.
    assert (Steps.addOptions st = []) as Hopt.
    { unfold Steps.addOptions. rewrite Hform. now apply all_taken_no_options. }
    assert (truthy (sf_product_id (Steps.formData st)) = true) as Htruthy.
    { rewrite Hform. simpl. apply negb_true_iff. now apply Z.eqb_neq. }
    assert (Steps.addDisabled st = true) as Hdis.
    { unfold Steps.addDisabled. rewrite Htruthy, Hopt. simpl. apply orb_true_r. }
    repeat split.
    + assumption.
    + unfold Steps.addWarning. now rewrite Htruthy, Hopt.
    + assumption.
    + unfold Steps.clickAdd. now rewrite Hdis.
Qed.

(** C4 run on product 7: with steps at 1, 3 and 5, with step 12 being
    edited, and with all twenty numbers in use. *)
Lemma step_numbers_offered_witness :
  Steps.getAvailableStepNumbers steps_135 (VNum 7) VNull =
  [2; 4; 6; 7; 8; 9; 10; 11; 12; 13; 14; 15; 16; 17; 18; 19; 20]
  /\ (In 4 (Steps.getAvailableStepNumbers steps_135 (VNum 7) (VNum 12))
      <-> 1 <= 4 <= 20 /\ ~ taken steps_135 7 (VNum 12) 4)
  /\ (Steps.addOptions full_form = []
      /\ Steps.addWarning full_form
         = Some "All step positions (1-20) are taken for this product"
      /\ Steps.addDisabled full_form = true
      /\ Steps.clickAdd (B := Demo.memory) (ret (Api.ok [])) (fun f => ret Api.ok_plain)
           full_form (Demo.world Demo.rows0 ∅)
         = (full_form, Demo.world Demo.rows0 ∅)).
Proof.
  destruct step_numbers_offered as (H1 & H2 & H3).
  split; [| split].
  - apply H1; [lia |].
    intros n. rewrite taken_no_exclusion. unfold steps_135. simpl. split.
    + intros (s & [<- | [<- | [<- | []]]] & _ & <-); simpl; tauto.
    + intros [-> | [-> | ->]];
        [exists (step_at 11 7 1) | exists (step_at 12 7 3) | exists (step_at 13 7 5)];
        simpl; tauto.
  - apply H2. lia.
  - apply (H3 Demo.memory _ _ full_form 7); [reflexivity | lia |].
    intros n Hn. apply taken_no_exclusion.
    exists (step_at (100 + n) 7 n). split; [| split; reflexivity].
    change (Steps.steps full_form) with steps_full.
    apply (in_map (fun k => step_at (100 + k) 7 k) _ n). now apply in_Array_from_20.
Defined.

(** ** The session store *)

Section Session.
Context {B : Backend}.
Variable jwt_decode : string -> option AuthContext.JwtPayload.

Import AuthContext.

Lemma exp_before_lt (e : Q) (now : Q) :
  exp_before (Some e) now = true <-> (e < now)%Q.
Proof.
  unfold exp_before. rewrite negb_true_iff. split.
  - intros H. apply Qnot_le_lt. intros Hle.
    apply Qle_bool_iff in Hle. congruence.
  - intros H. destruct (Qle_bool now e) eqn:E; [| reflexivity].
    apply Qle_bool_iff in E. exfalso. revert E. now apply Qlt_not_le.
Qed.

(** What [loadUser] returns and does to the world, by cases on the stored
    token. *)
Lemma loadUser_absent (now : Z) (w : World B) :
  localStorage w !! "token" = None -> loadUser jwt_decode now w = (signedOut, w).
Proof. intros H. unfold loadUser, bind, getItem, ret. now rewrite H. Qed.

Lemma loadUser_empty (now : Z) (w : World B) :
  localStorage w !! "token" = Some "" -> loadUser jwt_decode now w = (signedOut, w).
Proof. intros H. unfold loadUser, bind, getItem, ret. now rewrite H. Qed.

Lemma loadUser_undecodable (now : Z) (w : World B) (t : string) :
  localStorage w !! "token" = Some t -> str_truthy t = true ->
  jwt_decode t = None ->
  loadUser jwt_decode now w = (signedOut, snd (removeItem "token" w)).
Proof.
  intros H Ht Hd. unfold loadUser, bind, getItem, ret.
  now rewrite H, Ht, Hd.
Qed.

Lemma loadUser_expired (now : Z) (w : World B) (t : string) payload :
  localStorage w !! "token" = Some t -> str_truthy t = true ->
  jwt_decode t = Some payload ->
  exp_before (exp payload) (currentTime now) = true ->
  loadUser jwt_decode now w = (signedOut, snd (removeItem "token" w)).
Proof.
  intros H Ht Hd He. unfold loadUser, bind, getItem, ret.
  now rewrite H, Ht, Hd, He.
Qed.

Lemma loadUser_valid (now : Z) (w : World B) (t : string) payload :
  localStorage w !! "token" = Some t -> str_truthy t = true ->
  jwt_decode t = Some payload ->
  exp_before (exp payload) (currentTime now) = false ->
  loadUser jwt_decode now w =
  ({| loading := false; isAuthenticated := true;
      user := Some {| id := sub payload; username := localStorage w !! "username" |};
      token := Some t |}, w).
Proof.
  intros H Ht Hd He. unfold loadUser, bind, getItem, ret.
  now rewrite H, Ht, Hd, He.
Qed.

(** Every way out of [loadUser] clears [loading], and leaves a consistent
    session. *)
Lemma loadUser_settles (now : Z) (w : World B) :
  loading (fst (loadUser jwt_decode now w)) = false
  /\ consistent (fst (loadUser jwt_decode now w)) = true.
Proof.
  destruct (localStorage w !! "token") as [t |] eqn:H.
  2: { now rewrite loadUser_absent. }
  destruct (str_truthy t) eqn:Ht.
  2: { unfold loadUser, bind, getItem, ret. now rewrite H, Ht. }
  destruct (jwt_decode t) as [payload |] eqn:Hd.
  2: { now rewrite (loadUser_undecodable now w t). }
  destruct (exp_before (exp payload) (currentTime now)) eqn:He.
  - now rewrite (loadUser_expired now w t payload).
  - now rewrite (loadUser_valid now w t payload).
Qed.

Lemma login_settles (c : Credentials) (a : Auth) (w : World B) :
  (loading a = false -> loading (snd (fst (login c a w))) = false)
  /\ (consistent a = true -> consistent (snd (fst (login c a w))) = true).
Proof.
  unfold login, bind, axios, setItem, ret.
  destruct (respond B (PostLogin c) (server w)) as [[d | e] s]; simpl; tauto.
Qed.

Lemma register_keeps (u : UserData) (a : Auth) (w : World B) :
  snd (fst (register u a w)) = a.
Proof.
  unfold register, bind, axios, ret.
  now destruct (respond B (PostRegister u) (server w)) as [[d | e] s].
Qed.

Lemma step_settles (op : Op) (a : Auth) (w : World B) :
  loading a = false -> consistent a = true ->
  loading (fst (step jwt_decode op a w)) = false
  /\ consistent (fst (step jwt_decode op a w)) = true.
Proof.
  intros Hl Hc. destruct op as [now | c | u |]; simpl.
  - apply loadUser_settles.
  - unfold bind, ret. destruct (login c a w) as [[r a'] w'] eqn:E. simpl.
    pose proof (login_settles c a w) as [H1 H2]. rewrite E in H1, H2. simpl in *.
    auto.
  - unfold bind, ret. destruct (register u a w) as [[r a'] w'] eqn:E. simpl.
    pose proof (register_keeps u a w) as H. rewrite E in H. simpl in H. subst a'.
    auto.
  - unfold logout, bind, removeItem, ret. simpl. auto.
Qed.

Lemma states_settled (ops : list Op) (a : Auth) (w : World B) :
  loading a = false -> consistent a = true ->
  Forall (fun x => loading x = false /\ consistent x = true)
         (states jwt_decode ops a w).
Proof.
  revert a w. induction ops as [| op ops IH]; intros a w Hl Hc; simpl.
  - constructor.
  - destruct (step jwt_decode op a w) as [a' w'] eqn:E.
    pose proof (step_settles op a w Hl Hc) as [Hl' Hc']. rewrite E in Hl', Hc'.
    simpl in Hl', Hc'. constructor; [split; assumption |]. now apply IH.
Qed.

Lemma states_after_hydrate (now : Z) (ops : list Op) (a : Auth) (w : World B) :
  Forall (fun x => loading x = false /\ consistent x = true)
         (states jwt_decode (Hydrate now :: ops) a w).
Proof.
  simpl. destruct (loadUser jwt_decode now w) as [a' w'] eqn:E.
  pose proof (loadUser_settles now w) as [Hl Hc]. rewrite E in Hl, Hc. simpl in *.
  constructor; [split; assumption |]. now apply states_settled.
Qed.

End Session.

(** C1, as the code has it. A stored, non-empty token that does not decode,
    or whose expiry lies strictly before the current time, leaves the
    session signed out, is removed from durable storage, and no request is
    sent. (An empty stored token also ends signed out.) *)
Theorem hydrate_drops_stale_token
    (B : Backend) (jwt_decode : string -> option AuthContext.JwtPayload)
    (w : World B) (Date_now : Z) (t : string) :
  localStorage w !! "token" = Some t ->
  (jwt_decode t = None
   \/ exists payload e, jwt_decode t = Some payload
                        /\ AuthContext.exp payload = Some e
                        /\ (e < AuthContext.currentTime Date_now)%Q) ->
  fst (AuthContext.loadUser jwt_decode Date_now w) = AuthContext.signedOut
  /\ calls (snd (AuthContext.loadUser jwt_decode Date_now w)) = calls w
  /\ (t <> "" ->
      localStorage (snd (AuthContext.loadUser jwt_decode Date_now w)) !! "token" = None).
Proof.
  intros Hstored Hbad.
  destruct (str_truthy t) eqn:Ht.
  - assert (AuthContext.loadUser jwt_decode Date_now w
            = (AuthContext.signedOut, snd (removeItem "token" w))) as ->.
    { destruct Hbad as [Hd | (payload & e & Hd & He & Hlt)].
      - now apply (loadUser_undecodable jwt_decode Date_now w t).
      - apply (loadUser_expired jwt_decode Date_now w t payload); try assumption.
        rewrite He. now apply exp_before_lt. }
    simpl. repeat split. intros _. apply lookup_delete_eq.
  - assert (t = "") as ->.
    { unfold str_truthy in Ht. apply negb_false_iff in Ht. now apply String.eqb_eq. }
    rewrite (loadUser_empty jwt_decode Date_now w Hstored). simpl.
    repeat split. congruence.
Qed.

(** C1 run on a browser that holds the token expiring at second 100, read
    one millisecond later, and on one that holds a token nobody can decode. *)
Lemma hydrate_drops_stale_token_witness :
  (fst (AuthContext.loadUser decoder 100001 (Demo.world Demo.rows0 stored_session))
   = AuthContext.signedOut
   /\ calls (snd (AuthContext.loadUser decoder 100001 (Demo.world Demo.rows0 stored_session)))
      = []
   /\ ("jwt-100" <> "" ->
       localStorage (snd (AuthContext.loadUser decoder 100001
                            (Demo.world Demo.rows0 stored_session))) !! "token" = None))
  /\ (fst (AuthContext.loadUser decoder 5 (Demo.world Demo.rows0 garbled_session))
      = AuthContext.signedOut
      /\ calls (snd (AuthContext.loadUser decoder 5 (Demo.world Demo.rows0 garbled_session)))
         = []
      /\ ("not-a-jwt" <> "" ->
          localStorage (snd (AuthContext.loadUser decoder 5
                               (Demo.world Demo.rows0 garbled_session))) !! "token" = None)).
Proof.
  split.
  - apply (hydrate_drops_stale_token Demo.memory decoder
             (Demo.world Demo.rows0 stored_session) 100001 "jwt-100").
    + reflexivity.
    + right. exists {| AuthContext.exp := Some (100 # 1); AuthContext.sub := Some 1 |}, (100 # 1).
      split; [reflexivity | split; [reflexivity |]].
      unfold AuthContext.currentTime, Qlt. simpl. lia.
  - apply (hydrate_drops_stale_token Demo.memory decoder
             (Demo.world Demo.rows0 garbled_session) 5 "not-a-jwt").
    + reflexivity.
    + left. reflexivity.
Defined.

(** C1 as stated fails. A token whose expiry equals the current time
    (here second 100, read at millisecond 100000) is accepted, so the
    session is authenticated and nothing is removed. A token that did expire
    is removed while the stored username stays. And a stored empty token,
    which no decoder reads, ends signed out but stays in storage. *)
Lemma hydrate_counterexample :
  AuthContext.isAuthenticated
    (fst (AuthContext.loadUser decoder 100000 (Demo.world Demo.rows0 stored_session)))
  = true
  /\ localStorage (snd (AuthContext.loadUser decoder 100000
                          (Demo.world Demo.rows0 stored_session))) !! "token"
     = Some "jwt-100"
  /\ localStorage (snd (AuthContext.loadUser decoder 100001
                          (Demo.world Demo.rows0 stored_session))) !! "username"
     = Some "alice"
  /\ decoder "" = None
  /\ localStorage (snd (AuthContext.loadUser decoder 100001
                          (Demo.world Demo.rows0 (<["token" := ""]> ∅)))) !! "token"
     = Some "".
Proof. repeat split; vm_compute; reflexivity. Qed.

(** C6. When the backend answers alice's credentials with token T, user id 1
    and username alice, [login] reports success, the session becomes the
    authenticated one of user 1 with token T, and both values are written
    to durable storage; the same holds of any credentials and any answer.
    When the backend rejects a login, [login] still
    returns: the reply is a failure whose message is the server's own when it
    sent a non-empty one and "Authentication failed" otherwise, and neither
    the session nor the storage changes. *)
Theorem login_outcomes :
  (forall (B : Backend) (auth : AuthContext.Auth) (w : World B) s,
      respond B (PostLogin alice) (server w)
      = (Resolved {| access_token := "T"; user_id := 1; ld_username := "alice" |}, s) ->
      fst (AuthContext.login alice auth w)
      = ({| AuthContext.success := true; AuthContext.message := None |}, alice_session)
      /\ localStorage (snd (AuthContext.login alice auth w)) !! "token" = Some "T"
      /\ localStorage (snd (AuthContext.login alice auth w)) !! "username" = Some "alice")
  /\ (forall (B : Backend) (credentials : Credentials) (auth : AuthContext.Auth)
             (w : World B) d s,
         respond B (PostLogin credentials) (server w) = (Resolved d, s) ->
         fst (AuthContext.login credentials auth w)
         = ({| AuthContext.success := true; AuthContext.message := None |},
            {| AuthContext.loading := false; AuthContext.isAuthenticated := true;
               AuthContext.user := Some {| AuthContext.id := Some (user_id d);
                                           AuthContext.username := Some (ld_username d) |};
               AuthContext.token := Some (access_token d) |})
         /\ localStorage (snd (AuthContext.login credentials auth w))
            = <["username" := ld_username d]> (<["token" := access_token d]> (localStorage w)))
  /\ (forall (B : Backend) (credentials : Credentials) (auth : AuthContext.Auth)
             (w : World B) e s,
         respond B (PostLogin credentials) (server w) = (Rejected e, s) ->
         fst (AuthContext.login credentials auth w)
         = ({| AuthContext.success := false;
               AuthContext.message :=
                 Some (match response_message e with
                       | Some m => if String.eqb m "" then "Authentication failed" else m
                       | None => "Authentication failed"
                       end) |}, auth)
         /\ localStorage (snd (AuthContext.login credentials auth w)) = localStorage w).
Proof.
  split; [| split].
  - intros B auth w s H. unfold AuthContext.login, bind, axios, setItem, ret.
    rewrite H. simpl. repeat split.
    + rewrite lookup_insert_ne by discriminate. apply lookup_insert_eq.
    + apply lookup_insert_eq.
  - intros B credentials auth w d s H.
    unfold AuthContext.login, bind, axios, setItem, ret. rewrite H. simpl.
    split; reflexivity.
  - intros B credentials auth w e s H.
    unfold AuthContext.login, bind, axios, ret. rewrite H. simpl.
    split; [| reflexivity]. unfold or_default, str_truthy.
    destruct (response_message e) as [m |]; [| reflexivity].
    now destruct (String.eqb m "").
Qed.

(** C6 run against the in-memory backend: alice signs in, mallory is turned
    away with the server message, and with the backend out of reach the
    generic message is returned. *)
Lemma login_outcomes_witness :
  (fst (AuthContext.login alice (AuthContext.initialAuth ∅) (Demo.world Demo.rows0 ∅))
   = ({| AuthContext.success := true; AuthContext.message := None |}, alice_session)
   /\ localStorage (snd (AuthContext.login alice (AuthContext.initialAuth ∅)
                           (Demo.world Demo.rows0 ∅))) !! "token" = Some "T"
   /\ localStorage (snd (AuthContext.login alice (AuthContext.initialAuth ∅)
                           (Demo.world Demo.rows0 ∅))) !! "username" = Some "alice")
  /\ (fst (AuthContext.login mallory AuthContext.signedOut (Demo.world Demo.rows0 ∅))
      = ({| AuthContext.success := false;
            AuthContext.message := Some "Invalid username or password" |},
         AuthContext.signedOut)
      /\ localStorage (snd (AuthContext.login mallory AuthContext.signedOut
                              (Demo.world Demo.rows0 ∅))) = ∅)
  /\ (fst (AuthContext.login alice AuthContext.signedOut
             (Demo.world_of (Demo.refusing Demo.network_error) tt ∅))
      = ({| AuthContext.success := false;
            AuthContext.message := Some "Authentication failed" |},
         AuthContext.signedOut)
      /\ localStorage (snd (AuthContext.login alice AuthContext.signedOut
                              (Demo.world_of (Demo.refusing Demo.network_error) tt ∅))) = ∅).
Proof.
  destruct login_outcomes as (Hok & _ & Hfail).
  split; [| split].
  - apply (Hok Demo.memory _ _ Demo.rows0). reflexivity.
  - apply (Hfail Demo.memory mallory AuthContext.signedOut (Demo.world Demo.rows0 ∅)
             (Demo.http_error 401 "Invalid username or password") Demo.rows0).
    reflexivity.
  - apply (Hfail (Demo.refusing Demo.network_error) alice AuthContext.signedOut
             (Demo.world_of (Demo.refusing Demo.network_error) tt ∅)
             Demo.network_error tt).
    reflexivity.
Defined.




(** C10. After the hydration on mount, every session a run of hydrate,
    login, register and logout goes through is consistent: authenticated
    with a token and a user, or signed out with neither. The initial state
    is not, whenever a non-empty token is stored: it carries that token
    while not authenticated. *)
Theorem session_consistent_once_hydrated
    (B : Backend) (jwt_decode : string -> option AuthContext.JwtPayload)
    (w : World B) (Date_now : Z) (ops : list AuthContext.Op)
    (storage : gmap string string) (c : ascii) (t : string) :
  Forall (fun a => AuthContext.loading a = false /\ AuthContext.consistent a = true)
         (AuthContext.states jwt_decode (AuthContext.Hydrate Date_now :: ops)
            (AuthContext.initialAuth (localStorage w)) w)
  /\ AuthContext.loading (AuthContext.initialAuth (<["token" := String c t]> storage)) = true
  /\ AuthContext.token (AuthContext.initialAuth (<["token" := String c t]> storage))
     = Some (String c t)
  /\ AuthContext.consistent (AuthContext.initialAuth (<["token" := String c t]> storage))
     = false.
Proof.
  split; [apply states_after_hydrate |].
  unfold AuthContext.initialAuth, AuthContext.consistent. simpl.
  rewrite lookup_insert_eq. simpl. repeat split.
Qed.

(** X1. After [logout], a hydration finds no token: it leaves the session
    signed out, whatever the decoder and the clock say, and sends nothing. *)
Theorem logout_then_hydrate_signed_out
    (B : Backend) (jwt_decode : string -> option AuthContext.JwtPayload)
    (w : World B) (Date_now : Z) :
  fst (AuthContext.logout w) = AuthContext.signedOut
  /\ AuthContext.loadUser jwt_decode Date_now (snd (AuthContext.logout w))
     = (AuthContext.signedOut, snd (AuthContext.logout w))
  /\ localStorage (snd (AuthContext.logout w)) !! "token" = None
  /\ localStorage (snd (AuthContext.logout w)) !! "username" = None
  /\ calls (snd (AuthContext.logout w)) = calls w.
Proof.
  assert (localStorage (snd (AuthContext.logout w)) !! "token" = None) as Htok.
  { unfold AuthContext.logout, bind, removeItem, ret. simpl.
    rewrite lookup_delete_ne by discriminate. apply lookup_delete_eq. }
  repeat split.
  - now apply loadUser_absent.
  - exact Htok.
  - unfold AuthContext.logout, bind, removeItem, ret. simpl. apply lookup_delete_eq.
Qed.

(** X2. [logout] can be called with no session and called again: the second
    call changes nothing. *)
Theorem logout_idempotent (B : Backend) (w : World B) :
  AuthContext.logout (snd (AuthContext.logout w))
  = (AuthContext.signedOut, snd (AuthContext.logout w)).
Proof.
  unfold AuthContext.logout, bind, removeItem, ret. simpl. f_equal. f_equal.
  apply map_eq. intros k. rewrite !lookup_delete.
  repeat case_decide; reflexivity.
Qed.

(** X3. [register] reports the backend's answer and never writes the session
    or durable storage, whether the backend accepts or rejects. *)
Theorem register_leaves_session
    (B : Backend) (userData : UserData) (auth : AuthContext.Auth) (w : World B) :
  snd (fst (AuthContext.register userData auth w)) = auth
  /\ localStorage (snd (AuthContext.register userData auth w)) = localStorage w
  /\ AuthContext.success (fst (fst (AuthContext.register userData auth w)))
     = resolved (fst (respond B (PostRegister userData) (server w))).
Proof.
  unfold AuthContext.register, bind, axios, ret.
  destruct (respond B (PostRegister userData) (server w)) as [[d | e] s];
    repeat split.
Qed.

(** ** The gateway *)

Create HintDb gateway.
#[local] Hint Unfold Api.getCompanies Api.createCompany Api.updateCompany
  Api.deleteCompany Api.getProducts Api.createProduct Api.updateProduct
  Api.deleteProduct Api.getClassCounts Api.createClassCount
  Api.updateClassCount Api.deleteClassCount : gateway.




(** ** Validation before any request *)

Lemma blank_falsy (s : string) : blank s -> str_truthy (trim s) = false.
Proof. unfold blank. intros ->. reflexivity. Qed.

Lemma absent_falsy (v : JsVal) : absent v -> truthy v = false.
Proof. intros [-> | [-> | ->]]; reflexivity. Qed.

Lemma company_needs_name {B} (st : Companies.State) (w : World B) :
  blank (cf_name (Companies.formData st)) ->
  Companies.handleAdd st w = (Companies.set_error "Company name is required" st, w).
Proof.
  intros H. unfold Companies.handleAdd. now rewrite (blank_falsy _ H).
Qed.

Lemma product_needs_fields {B} (st : Products.State) (w : World B) :
  blank (pf_name (Products.formData st)) \/ absent (pf_company_id (Products.formData st)) ->
  exists msg, In msg ["Product name is required"; "Company is required"]
              /\ Products.handleAdd st w = (Products.set_error msg st, w).
Proof.
  intros H. unfold Products.handleAdd.
  destruct (str_truthy (trim (pf_name (Products.formData st)))) eqn:E; simpl.
  - destruct H as [H | H]; [apply blank_falsy in H; congruence |].
    rewrite (absent_falsy _ H). simpl. eexists. split; [| reflexivity]. simpl. tauto.
  - eexists. split; [| reflexivity]. simpl. tauto.
Qed.

Lemma class_needs_fields {B} (st : ClassCounts.State) (w : World B) :
  blank (ccf_class (ClassCounts.formData st))
  \/ absent (ccf_product_id (ClassCounts.formData st)) ->
  exists msg, In msg ["Class is required"; "Product is required"]
              /\ ClassCounts.handleAdd st w = (ClassCounts.set_error msg st, w).
Proof.
  intros H. unfold ClassCounts.handleAdd.
  destruct (str_truthy (trim (ccf_class (ClassCounts.formData st)))) eqn:E; simpl.
  - destruct H as [H | H]; [apply blank_falsy in H; congruence |].
    rewrite (absent_falsy _ H). simpl. eexists. split; [| reflexivity]. simpl. tauto.
  - eexists. split; [| reflexivity]. simpl. tauto.
Qed.

Lemma step_needs_fields {B} getSteps createStep (st : Steps.State) (w : World B) :
  blank (sf_name (Steps.formData st))
  \/ absent (sf_product_id (Steps.formData st))
  \/ absent (sf_step_number (Steps.formData st)) ->
  exists msg, In msg ["Step name is required"; "Product is required";
                      "Step number is required"]
              /\ Steps.handleAdd getSteps createStep st w = (Steps.set_error msg st, w).
Proof.
  intros H. unfold Steps.handleAdd.
  destruct (str_truthy (trim (sf_name (Steps.formData st)))) eqn:E; simpl.
  2: { eexists. split; [| reflexivity]. simpl. tauto. }
  destruct (truthy (sf_product_id (Steps.formData st))) eqn:Ep; simpl.
  2: { eexists. split; [| reflexivity]. simpl. tauto. }
  destruct H as [H | [H | H]].
  - apply blank_falsy in H. congruence.
  - apply absent_falsy in H. congruence.
  - rewrite (absent_falsy _ H). simpl. eexists. split; [| reflexivity]. simpl. tauto.
Qed.

(** C3. On every entity screen, a creation whose name is empty once trimmed
    or whose required foreign key is absent ends at once: the handler only
    sets the error message naming a required field, and the world (the
    backend, the log of requests sent, storage) is exactly as before. A
    company with the empty name gets "Company name is required". *)
Theorem creation_needs_required_fields :
  (forall (B : Backend) (st : Companies.State) (w : World B),
      blank (cf_name (Companies.formData st)) ->
      Companies.handleAdd st w = (Companies.set_error "Company name is required" st, w))
  /\ (forall (B : Backend) (st : Products.State) (w : World B),
         blank (pf_name (Products.formData st))
         \/ absent (pf_company_id (Products.formData st)) ->
         exists msg, In msg ["Product name is required"; "Company is required"]
                     /\ Products.handleAdd st w = (Products.set_error msg st, w))
  /\ (forall (B : Backend) (st : ClassCounts.State) (w : World B),
         blank (ccf_class (ClassCounts.formData st))
         \/ absent (ccf_product_id (ClassCounts.formData st)) ->
         exists msg, In msg ["Class is required"; "Product is required"]
                     /\ ClassCounts.handleAdd st w = (ClassCounts.set_error msg st, w))
  /\ (forall (B : Backend) getSteps createStep (st : Steps.State) (w : World B),
         blank (sf_name (Steps.formData st))
         \/ absent (sf_product_id (Steps.formData st))
         \/ absent (sf_step_number (Steps.formData st)) ->
         exists msg, In msg ["Step name is required"; "Product is required";
                             "Step number is required"]
                     /\ Steps.handleAdd getSteps createStep st w
                        = (Steps.set_error msg st, w)).
Proof.
  repeat split; intros.
  - now apply company_needs_name.
  - now apply product_needs_fields.
  - now apply class_needs_fields.
  - now apply step_needs_fields.
Qed.

(** C3 run on each Add modal: no company name, no company chosen for a
    product, a class name of spaces, and a step without a number. *)
Lemma creation_needs_required_fields_witness :
  Companies.handleAdd company_unnamed (Demo.world Demo.rows0 ∅)
  = (Companies.set_error "Company name is required" company_unnamed,
     Demo.world Demo.rows0 ∅)
  /\ (exists msg, In msg ["Product name is required"; "Company is required"]
                  /\ Products.handleAdd product_no_company (Demo.world Demo.rows0 ∅)
                     = (Products.set_error msg product_no_company, Demo.world Demo.rows0 ∅))
  /\ (exists msg, In msg ["Class is required"; "Product is required"]
                  /\ ClassCounts.handleAdd class_spaces_only (Demo.world Demo.rows0 ∅)
                     = (ClassCounts.set_error msg class_spaces_only, Demo.world Demo.rows0 ∅))
  /\ (exists msg, In msg ["Step name is required"; "Product is required";
                          "Step number is required"]
                  /\ Steps.handleAdd (ret (Api.ok [])) (fun f => ret Api.ok_plain)
                       step_no_number (Demo.world Demo.rows0 ∅)
                     = (Steps.set_error msg step_no_number, Demo.world Demo.rows0 ∅)).
Proof.
  destruct creation_needs_required_fields as (Hc & Hp & Hk & Hs).
  split; [| split; [| split]].
  - apply Hc. reflexivity.
  - apply Hp. right. left. reflexivity.
  - apply Hk. left. reflexivity.
  - apply Hs. right. right. left. reflexivity.
Defined.

(** ** Refresh after write *)

Lemma request_world {B} (r : Req) (fb : string) on_ok (w : World B) :
  snd (Api.request r fb on_ok w)
  = {| server := snd (respond B r (server w)); calls := calls w ++ [r];
       localStorage := localStorage w; saved := saved w |}.
Proof.
  unfold Api.request, bind, axios, ret.
  now destruct (respond B r (server w)) as [[d | e] s].
Qed.

Lemma request_answer {B} (r : Req) (fb : string) on_ok (w w' : World B) :
  server w = server w' ->
  fst (Api.request r fb on_ok w) = fst (Api.request r fb on_ok w').
Proof.
  intros E. unfold Api.request, bind, axios, ret. rewrite E.
  now destruct (respond B r (server w')) as [[d | e] s].
Qed.

Lemma bind_run {B A C} (m : M B A) (k : A -> M B C) (w : World B) :
  bind m k w = k (fst (m w)) (snd (m w)).
Proof. unfold bind. now destruct (m w). Qed.

Lemma request_run {B} (r : Req) (fb : string) on_ok (w : World B) :
  Api.request r fb on_ok w
  = (match fst (respond B r (server w)) with
     | Resolved d => on_ok d
     | Rejected e => Api.caught e fb
     end, sent r w).
Proof.
  unfold Api.request, bind, axios, ret, sent.
  now destruct (respond B r (server w)) as [[d | e] s].
Qed.

Create HintDb handlers.
#[local] Hint Unfold Companies.handleAdd Companies.handleEdit Companies.handleDelete
  Products.handleAdd Products.handleEdit Products.handleDelete
  ClassCounts.handleAdd ClassCounts.handleEdit ClassCounts.handleDelete
  Steps.handleAdd Steps.handleEdit Steps.handleDelete : handlers.

Section CompaniesRefresh.
Context {B : Backend}.
Import Companies.

Lemma fetchCompanies_world (st : State) (w : World B) :
  snd (fetchCompanies st w) = sent GetCompanies w.
Proof.
  unfold fetchCompanies, Api.getCompanies. now rewrite bind_run, request_run.
Qed.

Lemma fetchCompanies_collection (st : State) (w : World B) d :
  fst (Api.getCompanies w) = Api.ok d -> companies (fst (fetchCompanies st w)) = d.
Proof.
  unfold fetchCompanies. rewrite bind_run. intros ->. reflexivity.
Qed.

Lemma companies_write (m : Mutation) (st : State) (w : World B) :
  accepted m st w = true ->
  exists st1,
    companies (fst (write m st w))
    = companies (fst (fetchCompanies st1 (sent (write_request m st) w)))
    /\ snd (write m st w) = sent GetCompanies (sent (write_request m st) w).
Proof.
  unfold accepted. intros H. apply andb_true_iff in H as [Hform Hres].
  exists (set_loading true st).
  rewrite <- fetchCompanies_world with (st := set_loading true st).
  revert Hres.
  destruct m; cbn [write write_request]; unfold form_ok in Hform;
    autounfold with handlers gateway;
    rewrite ?Hform; cbn [negb];
    rewrite bind_run, request_run;
    (destruct (fst (respond B _ (server w))) as [d | e]; [intros _ | discriminate]);
    cbn [fst snd Api.ok Api.ok_plain Api.success];
    rewrite !bind_run; split; reflexivity.
Qed.

End CompaniesRefresh.

Lemma sent_twice_calls {B} (r r' : Req) (w : World B) :
  calls (sent r' (sent r w)) = calls w ++ [r; r'].
Proof. simpl. now rewrite <- app_assoc. Qed.

Lemma sent_read_server {B} (r : Req) (w : World B) :
  reads_only B r -> server (sent r w) = server w.
Proof. intros H. simpl. apply H. Qed.

Lemma companies_refreshed {B} (m : Mutation) (st : Companies.State) (w : World B) :
  reads_only B GetCompanies ->
  Companies.accepted m st w = true ->
  calls (snd (Companies.write m st w))
  = calls w ++ [Companies.write_request m st; GetCompanies]
  /\ (forall d, fst (Api.getCompanies (snd (Companies.write m st w))) = Api.ok d ->
                Companies.companies (fst (Companies.write m st w)) = d).
Proof.
  intros Hro Hacc. destruct (companies_write m st w Hacc) as (st1 & Hc & Hw).
  rewrite Hw, Hc. split; [apply sent_twice_calls |].
  intros d Hd. apply fetchCompanies_collection. rewrite <- Hd.
  unfold Api.getCompanies. apply (request_answer GetCompanies).
  symmetry. now apply sent_read_server.
Qed.

Section ProductsRefresh.
Context {B : Backend}.
Import Products.

Lemma products_fetch_world (st : State) (w : World B) :
  snd (fetchData st w) = sent GetCompanies (sent GetProducts w).
Proof.
  unfold fetchData, Api.getProducts, Api.getCompanies.
  now rewrite !bind_run, !request_run.
Qed.

Lemma products_fetch_collection (st : State) (w : World B) d :
  fst (Api.getProducts w) = Api.ok d -> products (fst (fetchData st w)) = d.
Proof.
  unfold fetchData. rewrite !bind_run. intros ->. cbn [fst snd ret Api.ok Api.success].
  now destruct (Api.success _).
Qed.

Lemma products_write (m : Mutation) (st : State) (w : World B) :
  accepted m st w = true ->
  exists st1,
    products (fst (write m st w))
    = products (fst (fetchData st1 (sent (write_request m st) w)))
    /\ snd (write m st w)
       = sent GetCompanies (sent GetProducts (sent (write_request m st) w)).
Proof.
  unfold accepted. intros H. apply andb_true_iff in H as [Hform Hres].
  exists (set_loading true st).
  rewrite <- products_fetch_world with (st := set_loading true st).
  revert Hres.
  destruct m; cbn [write write_request]; unfold form_ok in Hform;
    try (apply andb_true_iff in Hform as [Hname Hkey]);
    autounfold with handlers gateway;
    rewrite ?Hname, ?Hkey; cbn [negb];
    rewrite bind_run, request_run;
    (destruct (fst (respond B _ (server w))) as [d | e]; [intros _ | discriminate]);
    cbn [fst snd Api.ok Api.ok_plain Api.success];
    rewrite !bind_run; split; reflexivity.
Qed.

End ProductsRefresh.

Lemma products_refreshed {B} (m : Mutation) (st : Products.State) (w : World B) :
  reads_only B GetProducts -> reads_only B GetCompanies ->
  Products.accepted m st w = true ->
  calls (snd (Products.write m st w))
  = calls w ++ [Products.write_request m st; GetProducts; GetCompanies]
  /\ (forall d, fst (Api.getProducts (snd (Products.write m st w))) = Api.ok d ->
                Products.products (fst (Products.write m st w)) = d).
Proof.
  intros Hp Hc Hacc. destruct (products_write m st w Hacc) as (st1 & Hcol & Hw).
  rewrite Hw, Hcol. split.
  { simpl. now rewrite <- !app_assoc. }
  intros d Hd. apply products_fetch_collection. rewrite <- Hd.
  unfold Api.getProducts. apply (request_answer GetProducts).
  symmetry. rewrite !sent_read_server by assumption. reflexivity.
Qed.

Section ClassCountsRefresh.
Context {B : Backend}.
Import ClassCounts.

Lemma classes_fetch_world (st : State) (w : World B) :
  snd (fetchData st w) = sent GetProducts (sent GetClassCounts w).
Proof.
  unfold fetchData, Api.getProducts, Api.getClassCounts.
  now rewrite !bind_run, !request_run.
Qed.

Lemma classes_fetch_collection (st : State) (w : World B) d :
  fst (Api.getClassCounts w) = Api.ok d -> classCounts (fst (fetchData st w)) = d.
Proof.
  unfold fetchData. rewrite !bind_run. intros ->. cbn [fst snd ret Api.ok Api.success].
  now destruct (Api.success _).
Qed.

Lemma classes_write (m : Mutation) (st : State) (w : World B) :
  accepted m st w = true ->
  exists st1,
    classCounts (fst (write m st w))
    = classCounts (fst (fetchData st1 (sent (write_request m st) w)))
    /\ snd (write m st w)
       = sent GetProducts (sent GetClassCounts (sent (write_request m st) w)).
Proof.
  unfold accepted. intros H. apply andb_true_iff in H as [Hform Hres].
  exists (set_loading true st).
  rewrite <- classes_fetch_world with (st := set_loading true st).
  revert Hres.
  destruct m; cbn [write write_request]; unfold form_ok in Hform;
    try (apply andb_true_iff in Hform as [Hname Hkey]);
    autounfold with handlers gateway;
    rewrite ?Hname, ?Hkey; cbn [negb];
    rewrite bind_run, request_run;
    (destruct (fst (respond B _ (server w))) as [d | e]; [intros _ | discriminate]);
    cbn [fst snd Api.ok Api.ok_plain Api.success];
    rewrite !bind_run; split; reflexivity.
Qed.

End ClassCountsRefresh.

Lemma classes_refreshed {B} (m : Mutation) (st : ClassCounts.State) (w : World B) :
  reads_only B GetClassCounts -> reads_only B GetProducts ->
  ClassCounts.accepted m st w = true ->
  calls (snd (ClassCounts.write m st w))
  = calls w ++ [ClassCounts.write_request m st; GetClassCounts; GetProducts]
  /\ (forall d, fst (Api.getClassCounts (snd (ClassCounts.write m st w))) = Api.ok d ->
                ClassCounts.classCounts (fst (ClassCounts.write m st w)) = d).
Proof.
  intros Hk Hp Hacc. destruct (classes_write m st w Hacc) as (st1 & Hcol & Hw).
  rewrite Hw, Hcol. split.
  { simpl. now rewrite <- !app_assoc. }
  intros d Hd. apply classes_fetch_collection. rewrite <- Hd.
  unfold Api.getClassCounts. apply (request_answer GetClassCounts).
  symmetry. rewrite !sent_read_server by assumption. reflexivity.
Qed.

Section StepsRefresh.
Context {B : Backend}.
Variable getSteps : M B (Api.Result (list Step)).
Variable createStep : StepForm -> M B (Api.Result Step).
Variable updateStep : option Z -> StepForm -> M B (Api.Result Step).
Variable deleteStep : option Z -> M B (Api.Result unit).
Import Steps.

Lemma steps_fetch_world (st : State) (w : World B) :
  snd (fetchData getSteps st w) = sent GetProducts (snd (getSteps w)).
Proof.
  unfold fetchData, Api.getProducts. now rewrite !bind_run, !request_run.
Qed.

Lemma steps_fetch_collection (st : State) (w : World B) d :
  fst (getSteps w) = Api.ok d -> steps (fst (fetchData getSteps st w)) = d.
Proof.
  unfold fetchData. rewrite !bind_run. intros ->. cbn [fst snd ret Api.ok Api.success].
  now destruct (Api.success _).
Qed.

Lemma steps_write (m : Mutation) (st : State) (w : World B) :
  accepted createStep updateStep deleteStep m st w = true ->
  exists st1,
    steps (fst (write getSteps createStep updateStep deleteStep m st w))
    = steps (fst (fetchData getSteps st1
                    (after_write createStep updateStep deleteStep m st w)))
    /\ snd (write getSteps createStep updateStep deleteStep m st w)
       = sent GetProducts
           (snd (getSteps (after_write createStep updateStep deleteStep m st w))).
Proof.
  unfold accepted. intros H.
  exists (set_loading true st).
  rewrite <- steps_fetch_world with (st := set_loading true st).
  destruct m; cbn [write after_write];
    try (apply andb_true_iff in H as [Hform H]; unfold form_ok in Hform;
         apply andb_true_iff in Hform as [Hform Hnum];
         apply andb_true_iff in Hform as [Hname Hkey]);
    autounfold with handlers;
    rewrite ?Hname, ?Hkey, ?Hnum; cbn [negb];
    rewrite bind_run, H, !bind_run; split; reflexivity.
Qed.

Lemma steps_refreshed (m : Mutation) (st : State) (w : World B) :
  plain_read getSteps -> reads_only B GetProducts ->
  accepted createStep updateStep deleteStep m st w = true ->
  forall d,
    fst (getSteps (snd (write getSteps createStep updateStep deleteStep m st w)))
    = Api.ok d ->
    steps (fst (write getSteps createStep updateStep deleteStep m st w)) = d.
Proof.
  intros [Hkeep Hdep] Hp Hacc d Hd.
  destruct (steps_write m st w Hacc) as (st1 & Hcol & Hw).
  rewrite Hcol. apply steps_fetch_collection. rewrite <- Hd, Hw.
  apply Hdep. rewrite sent_read_server by assumption. symmetry. apply Hkeep.
Qed.

End StepsRefresh.

(** C2, as the code has it. On the company, product, class and step
    screens, every create, update or delete that the backend accepts is
    followed by a full fetch of the collection (and of the screen's second
    collection), sent right after the write; whenever an independent list
    call made next returns a collection, the screen holds exactly that
    collection. The backend's reads are taken to leave its rows alone. *)
Theorem writes_refresh_from_server :
  (forall (B : Backend) (m : Mutation) (st : Companies.State) (w : World B),
      reads_only B GetCompanies ->
      Companies.accepted m st w = true ->
      calls (snd (Companies.write m st w))
      = calls w ++ [Companies.write_request m st; GetCompanies]
      /\ (forall d, fst (Api.getCompanies (snd (Companies.write m st w))) = Api.ok d ->
                    Companies.companies (fst (Companies.write m st w)) = d))
  /\ (forall (B : Backend) (m : Mutation) (st : Products.State) (w : World B),
         reads_only B GetProducts -> reads_only B GetCompanies ->
         Products.accepted m st w = true ->
         calls (snd (Products.write m st w))
         = calls w ++ [Products.write_request m st; GetProducts; GetCompanies]
         /\ (forall d, fst (Api.getProducts (snd (Products.write m st w))) = Api.ok d ->
                       Products.products (fst (Products.write m st w)) = d))
  /\ (forall (B : Backend) (m : Mutation) (st : ClassCounts.State) (w : World B),
         reads_only B GetClassCounts -> reads_only B GetProducts ->
         ClassCounts.accepted m st w = true ->
         calls (snd (ClassCounts.write m st w))
         = calls w ++ [ClassCounts.write_request m st; GetClassCounts; GetProducts]
         /\ (forall d,
                fst (Api.getClassCounts (snd (ClassCounts.write m st w))) = Api.ok d ->
                ClassCounts.classCounts (fst (ClassCounts.write m st w)) = d))
  /\ (forall (B : Backend) getSteps createStep updateStep deleteStep
             (m : Mutation) (st : Steps.State) (w : World B),
         plain_read getSteps -> reads_only B GetProducts ->
         Steps.accepted createStep updateStep deleteStep m st w = true ->
         forall d,
           fst (getSteps (snd (Steps.write getSteps createStep updateStep deleteStep m st w)))
           = Api.ok d ->
           Steps.steps (fst (Steps.write getSteps createStep updateStep deleteStep m st w))
           = d).
Proof.
  split; [| split; [| split]]; intros.
  - now apply companies_refreshed.
  - now apply products_refreshed.
  - now apply classes_refreshed.
  - now apply (steps_refreshed getSteps createStep updateStep deleteStep m st w).
Qed.

(** C2 run against the in-memory backend: a company is created, a product
    renamed, a class created and a step deleted; each screen ends with the
    collection the backend then lists. *)
Lemma writes_refresh_from_server_witness :
  (calls (snd (Companies.write Create company_globex (Demo.world Demo.rows0 ∅)))
   = [PostCompany {| cf_name := "Globex" |}; GetCompanies]
   /\ Companies.companies (fst (Companies.write Create company_globex (Demo.world Demo.rows0 ∅)))
      = [Demo.acme; {| c_id := 6; c_name := "Globex" |}])
  /\ Products.products (fst (Products.write Update product_renamed (Demo.world Demo.rows0 ∅)))
     = [{| p_id := 2; p_name := "Gadget"; p_company_id := 1; p_image_url := None |}]
  /\ ClassCounts.classCounts
       (fst (ClassCounts.write Create class_scratch (Demo.world Demo.rows0 ∅)))
     = [{| cc_id := 6; cc_class := "scratch"; cc_product_id := 2 |}]
  /\ Steps.steps
       (fst (Steps.write (ret (Api.ok steps_left)) (fun f => ret Api.ok_plain)
               (fun i f => ret Api.ok_plain) (fun i => ret Api.ok_plain)
               Delete step_removed (Demo.world Demo.rows0 ∅)))
     = steps_left.
Proof.
  destruct writes_refresh_from_server as (Hc & Hp & Hk & Hs).
  assert (forall r, (r = GetCompanies \/ r = GetProducts \/ r = GetClassCounts) ->
                    reads_only Demo.memory r) as Hread.
  { intros r [-> | [-> | ->]] s; reflexivity. }
  split; [| split; [| split]].
  - destruct (Hc Demo.memory Create company_globex (Demo.world Demo.rows0 ∅)) as [H1 H2].
    + apply Hread. tauto.
    + reflexivity.
    + split; [exact H1 | apply H2; reflexivity].
  - destruct (Hp Demo.memory Update product_renamed (Demo.world Demo.rows0 ∅)) as [H1 H2].
    + apply Hread. tauto.
    + apply Hread. tauto.
    + reflexivity.
    + apply H2. reflexivity.
  - destruct (Hk Demo.memory Create class_scratch (Demo.world Demo.rows0 ∅)) as [H1 H2].
    + apply Hread. tauto.
    + apply Hread. tauto.
    + reflexivity.
    + apply H2. reflexivity.
  - apply (Hs Demo.memory (ret (Api.ok steps_left)) (fun f => ret Api.ok_plain)
             (fun i f => ret Api.ok_plain) (fun i => ret Api.ok_plain)
             Delete step_removed (Demo.world Demo.rows0 ∅)).
    + split; intros; reflexivity.
    + apply Hread. tauto.
    + reflexivity.
    + reflexivity.
Defined.

(** C2 as stated fails for the image collection: deleting an image sends
    the DELETE and nothing else, and filters the deleted id out of the list
    the page already held. Here the page still shows image 4 alone while an
    independent list call returns images 4 and 5. *)
Lemma image_delete_counterexample :
  let after := ImageManagerPage.handleDelete (Some "T") 3 true page_loaded
                 (Demo.world Demo.rows0 ∅) in
  ImageManagerPage.images page_loaded = [Demo.photo 3; Demo.photo 4]
  /\ calls (snd after) = [DeleteImage 3 (Some "T")]
  /\ ImageManagerPage.images (fst after) = [Demo.photo 4]
  /\ fst (axios (GetCompanyImages "1" (Some "T")) (snd after))
     = Resolved [Demo.photo 4; Demo.photo 5].
Proof. repeat split; vm_compute; reflexivity. Qed.

(** ** Upload failures *)

Section Upload.
Context {B : Backend} {Parent : Type}.
Variable token : Bearer.
Variable onImageUploaded : option (Parent -> M B Parent).
Import CaptureImage.

Lemma axios_run (r : Req) (w : World B) :
  axios r w = (fst (respond B r (server w)), sent r w).
Proof. unfold axios, sent. now destruct (respond B r (server w)). Qed.

Lemma handleUpload_caught (st : State) (p : Parent) (w : World B) (err : JsError) :
  upload_starts st = true ->
  fst (upload_attempt token st w) = Some err ->
  handleUpload token onImageUploaded st p w
  = (let '(r, w') := uploadFailed onImageUploaded err
                       (set_message "" (set_uploading true st)) p
                       (snd (upload_attempt token st w)) in
     ((set_uploading false (fst r), snd r), w')).
Proof.
  unfold upload_starts. intros Hs Herr.
  apply andb_true_iff in Hs as [Hs Hup]. apply andb_true_iff in Hs as [Himg Hprod].
  apply negb_true_iff in Himg, Hup.
  unfold handleUpload. rewrite Himg, Hprod, Hup. cbn [negb orb].
  cbn [imgSrc productId set_message set_uploading].
  revert Herr. unfold upload_attempt.
  rewrite bind_run, axios_run. cbn [fst snd].
  destruct (fst (respond B (FetchDataUrl _) (server w))) as [blob | e].
  - rewrite !bind_run, axios_run. cbn [fst snd].
    destruct (fst (respond B (PostImage blob _ token) _)) as [u | e].
    + discriminate.
    + intros [= ->]. unfold ret.
      now destruct (uploadFailed onImageUploaded err _ p _) as [[s q] w'].
  - intros [= ->]. rewrite bind_run. unfold ret.
    now destruct (uploadFailed onImageUploaded err _ p _) as [[s q] w'].
Qed.

End Upload.

(** C8. When an upload that started fails with an error that carries no
    server error text and whose message mentions a network problem, the
    widget shows the success message with its warning, clears the captured
    image and calls the refresh callback; when the error carries the
    server's error text, the widget reports the failure with that text,
    keeps the image and does not call the callback. *)
Theorem upload_failure_policy
    (B : Backend) (Parent : Type) (token : Bearer)
    (onImageUploaded : option (Parent -> M B Parent))
    (st : CaptureImage.State) (p : Parent) (w : World B) (err : JsError) :
  upload_starts st = true ->
  fst (upload_attempt token st w) = Some err ->
  (CaptureImage.server_error err = None ->
   CaptureImage.mentions_network err = true ->
   let '(st', p', w') := CaptureImage.handleUpload token onImageUploaded st p w in
   CaptureImage.message st'
   = "Image uploaded successfully! (network error, but likely succeeded)"
   /\ includes (CaptureImage.message st') "success" = true
   /\ CaptureImage.imgSrc st' = None
   /\ CaptureImage.uploading st' = false
   /\ (p', w') = CaptureImage.notify onImageUploaded p (snd (upload_attempt token st w)))
  /\ (forall e, CaptureImage.server_error err = Some e ->
      let '(st', p', w') := CaptureImage.handleUpload token onImageUploaded st p w in
      CaptureImage.message st' = "Upload failed: " +:+ e
      /\ CaptureImage.imgSrc st' = CaptureImage.imgSrc st
      /\ CaptureImage.uploading st' = false
      /\ p' = p
      /\ w' = snd (upload_attempt token st w)).
Proof.
  intros Hs Herr.
  rewrite (handleUpload_caught token onImageUploaded st p w err Hs Herr).
  unfold CaptureImage.uploadFailed. split.
  - intros Hnone Hnet. rewrite Hnone, Hnet. rewrite bind_run. unfold ret.
    destruct (CaptureImage.notify onImageUploaded p _) as [p' w']. simpl.
    repeat split.
  - intros e He. rewrite He. unfold ret. simpl. repeat split.
Qed.

(** C8 run on an upload whose answer is lost to a network error, and on one
    the server refuses with its own error text. *)
Lemma upload_failure_policy_witness :
  (let '(st', p', w') :=
     CaptureImage.handleUpload (Some "T") count_refresh ready_to_upload O
       (Demo.world_of (Demo.lossy Demo.network_error) tt ∅) in
   CaptureImage.message st'
   = "Image uploaded successfully! (network error, but likely succeeded)"
   /\ includes (CaptureImage.message st') "success" = true
   /\ CaptureImage.imgSrc st' = None
   /\ CaptureImage.uploading st' = false
   /\ (p', w') = (1%nat,
                   snd (upload_attempt (Some "T") ready_to_upload
                          (Demo.world_of (Demo.lossy Demo.network_error) tt ∅))))
  /\ (let '(st', p', w') :=
        CaptureImage.handleUpload (Some "T") count_refresh ready_to_upload O
          (Demo.world_of (Demo.lossy product_gone) tt ∅) in
      CaptureImage.message st' = "Upload failed: " +:+ "Product not found"
      /\ CaptureImage.imgSrc st' = CaptureImage.imgSrc ready_to_upload
      /\ CaptureImage.uploading st' = false
      /\ p' = O
      /\ w' = snd (upload_attempt (Some "T") ready_to_upload
                     (Demo.world_of (Demo.lossy product_gone) tt ∅))).
Proof.
  split.
  - apply (upload_failure_policy (Demo.lossy Demo.network_error) nat (Some "T")
             count_refresh ready_to_upload O
             (Demo.world_of (Demo.lossy Demo.network_error) tt ∅) Demo.network_error);
      reflexivity.
  - apply (upload_failure_policy (Demo.lossy product_gone) nat (Some "T")
             count_refresh ready_to_upload O
             (Demo.world_of (Demo.lossy product_gone) tt ∅) product_gone);
      reflexivity.
Defined.

(** ** Single-flight project creation *)

Section SingleFlight.
Import ProjectCreator.

Lemma filter_delete_length {A} (f : A -> bool) (l : list A) (k : nat) (x : A) :
  l !! k = Some x ->
  (length (List.filter f (delete k l)) + (if f x then 1 else 0)
   = length (List.filter f l))%nat.
Proof.
  revert k. induction l as [| a l IH]; intros [| k] H; try discriminate.
  - injection H as ->. simpl. destruct (f x); simpl; lia.
  - simpl in H. specialize (IH k H).
    change (delete (S k) (a :: l)) with (a :: delete k l).
    simpl. destruct (f a); simpl; lia.
Qed.

Lemma filter_app_length {A} (f : A -> bool) (l : list A) (x : A) :
  length (List.filter f (l ++ [x]))
  = (length (List.filter f l) + (if f x then 1 else 0))%nat.
Proof.
  rewrite List.filter_app, length_app. simpl. now destruct (f x).
Qed.

Lemma rerender_same (before st : State) :
  in_flight (rerender before st) = in_flight st
  /\ isCreatingRef (rerender before st) = isCreatingRef st
  /\ abortControllerRef (rerender before st) = abortControllerRef st
  /\ controllers (rerender before st) = controllers st
  /\ pending (rerender before st) = pending st
  /\ outbox (rerender before st) = outbox st.
Proof.
  unfold rerender. destruct (String.eqb _ _); repeat split.
Qed.

Lemma finally_settled (st : State) :
  in_flight st = O -> settled (finally st).
Proof. intros H. split; [exact H | reflexivity]. Qed.

Lemma createProject_settled (rid : string) (st : State) :
  settled st -> settled (createProject rid st).
Proof.
  intros [Hn Href]. unfold createProject.
  destruct (negb (str_truthy (selectedProduct st))); [split; assumption |].
  destruct (closure_loading st || isCreatingRef st) eqn:G; [split; assumption |].
  apply orb_false_iff in G as [_ G]. rewrite G in Hn. rewrite (Href G).
  split; [| discriminate].
  unfold in_flight in *. cbn. rewrite filter_app_length. cbn in Hn. rewrite Hn.
  reflexivity.
Qed.

Lemma handle_settled (ev : Event) (st : State) :
  settled st -> settled (handle ev st).
Proof.
  intros Hst. destruct ev as [v | rid | | k title | k err | k rows | k |]; cbn [handle].
  - exact Hst.
  - now apply createProject_settled.
  - destruct Hst as [Hn Href]. split; [| exact Href].
    unfold in_flight in *. cbn. rewrite filter_app_length. cbn. lia.
  - destruct (pending st !! k) as [[sig rid | c] |] eqn:Hk; try exact Hst.
    destruct Hst as [Hn Href].
    pose proof (filter_delete_length counts _ _ _ Hk) as Hdel. cbn in Hdel.
    unfold in_flight in Hn.
    assert (isCreatingRef st = true) as Hc.
    { revert Hn Hdel. destruct (isCreatingRef st); [reflexivity | lia]. }
    rewrite Hc in Hn.
    assert (length (List.filter counts (delete k (pending st))) = O) as Hz by lia.
    unfold createResolved, current_aborted. cbn.
    destruct (abortControllerRef st) as [c |].
    + destruct (default false (controllers st !! c)).
      * apply finally_settled. exact Hz.
      * split; [| cbn; congruence].
        unfold in_flight. cbn. rewrite filter_app_length, Hz, Hc. reflexivity.
    + apply finally_settled. exact Hz.
  - destruct (pending st !! k) as [[sig rid | c] |] eqn:Hk; try exact Hst.
    destruct Hst as [Hn Href].
    pose proof (filter_delete_length counts _ _ _ Hk) as Hdel. cbn in Hdel.
    unfold in_flight in Hn.
    assert (isCreatingRef st = true) as Hc.
    { revert Hn Hdel. destruct (isCreatingRef st); [reflexivity | lia]. }
    rewrite Hc in Hn.
    assert (length (List.filter counts (delete k (pending st))) = O) as Hz by lia.
    unfold createRejected.
    destruct (String.eqb (e_name err) "AbortError"); apply finally_settled; exact Hz.
  - destruct (pending st !! k) as [[sig rid | c] |] eqn:Hk; try exact Hst.
    destruct Hst as [Hn Href].
    pose proof (filter_delete_length counts _ _ _ Hk) as Hdel. cbn in Hdel.
    unfold in_flight in Hn. unfold refreshDone.
    destruct c.
    + assert (isCreatingRef st = true) as Hc.
      { revert Hn Hdel. destruct (isCreatingRef st); [reflexivity | lia]. }
      rewrite Hc in Hn. apply finally_settled. unfold in_flight. cbn. lia.
    + split; [| exact Href]. unfold in_flight. cbn. lia.
  - destruct (pending st !! k) as [[sig rid | c] |] eqn:Hk; try exact Hst.
    destruct Hst as [Hn Href].
    pose proof (filter_delete_length counts _ _ _ Hk) as Hdel. cbn in Hdel.
    unfold in_flight in Hn. unfold refreshDone.
    destruct c.
    + assert (isCreatingRef st = true) as Hc.
      { revert Hn Hdel. destruct (isCreatingRef st); [reflexivity | lia]. }
      rewrite Hc in Hn. apply finally_settled. unfold in_flight. cbn. lia.
    + split; [| exact Href]. unfold in_flight. cbn. lia.
  - destruct (abortControllerRef st); exact Hst.
Qed.

Lemma step_settled (ev : Event) (st : State) :
  settled st -> settled (step ev st).
Proof.
  intros H. apply (handle_settled ev) in H. unfold step, settled in *.
  destruct (rerender_same st (handle ev st)) as (E1 & E2 & E3 & _).
  now rewrite E1, E2, E3.
Qed.

Lemma run_settled (evs : list Event) (st : State) :
  settled st -> settled (run evs st).
Proof.
  revert st. induction evs as [| ev evs IH]; intros st H; [exact H |].
  apply IH. now apply step_settled.
Qed.

Lemma initial_settled : settled initial.
Proof. split; reflexivity. Qed.

End SingleFlight.

Section NoCancellation.
Import ProjectCreator.

Lemma handle_controllers (ev : Event) (st : State) :
  settled st -> is_unmount ev = false ->
  controllers (handle ev st) = controllers st
  \/ controllers (handle ev st) = controllers st ++ [false].
Proof.
  intros [Hn Href] Hev.
  destruct ev as [v | rid | | k title | k err | k rows | k |]; cbn [handle];
    try discriminate; try (left; reflexivity).
  - unfold createProject.
    destruct (negb (str_truthy (selectedProduct st))); [left; reflexivity |].
    destruct (closure_loading st || isCreatingRef st) eqn:G; [left; reflexivity |].
    apply orb_false_iff in G as [_ G]. rewrite (Href G). right. reflexivity.
  - destruct (pending st !! k) as [[sig rid | c] |]; try (left; reflexivity).
    unfold createResolved, current_aborted. cbn.
    destruct (abortControllerRef st) as [c |]; [| left; reflexivity].
    destruct (default false (controllers st !! c)); left; reflexivity.
  - destruct (pending st !! k) as [[sig rid | c] |]; try (left; reflexivity).
    unfold createRejected.
    destruct (String.eqb (e_name err) "AbortError"); left; reflexivity.
  - destruct (pending st !! k) as [[sig rid | c] |]; try (left; reflexivity).
    unfold refreshDone. destruct c; left; reflexivity.
  - destruct (pending st !! k) as [[sig rid | c] |]; try (left; reflexivity).
    unfold refreshDone. destruct c; left; reflexivity.
Qed.

(** In a run with no unmount, no abort controller is ever aborted: the line
    of [createProject] that aborts the previous controller is only reached
    with [isCreatingRef] unset, and then the controller ref holds null. *)
Lemma run_never_aborts (evs : list Event) (st : State) :
  settled st ->
  forallb (fun ev => negb (is_unmount ev)) evs = true ->
  Forall (fun aborted => aborted = false) (controllers st) ->
  Forall (fun aborted => aborted = false) (controllers (run evs st)).
Proof.
  revert st. induction evs as [| ev evs IH]; intros st Hst Hevs Hc; [exact Hc |].
  simpl in Hevs. apply andb_true_iff in Hevs as [Hev Hevs].
  apply negb_true_iff in Hev.
  cbn [run fold_left]. apply IH; [now apply step_settled | exact Hevs |].
  unfold step. destruct (rerender_same st (handle ev st)) as (_ & _ & _ & E & _).
  rewrite E. destruct (handle_controllers ev st Hst Hev) as [-> | ->]; [exact Hc |].
  apply Forall_app. split; [exact Hc | repeat constructor].
Qed.

Lemma invoke_ignored (rid : string) (st : State) :
  settled st -> in_flight st = 1%nat ->
  pending (step (Invoke rid) st) = pending st
  /\ outbox (step (Invoke rid) st) = outbox st
  /\ controllers (step (Invoke rid) st) = controllers st.
Proof.
  intros [Hn Href] Hone.
  assert (isCreatingRef st = true) as Hc.
  { revert Hn. rewrite Hone. destruct (isCreatingRef st); [reflexivity | discriminate]. }
  unfold step. destruct (rerender_same st (handle (Invoke rid) st)) as (_ & _ & _ & E1 & E2 & E3).
  rewrite E1, E2, E3. cbn [handle]. unfold createProject.
  destruct (negb (str_truthy (selectedProduct st))); [repeat split |].
  rewrite Hc, orb_true_r. repeat split.
Qed.

End NoCancellation.

(** C5, as the code has it. Whatever events arrive, at most one project
    creation is under way. While one is, a further invocation is ignored:
    it parks nothing, sends nothing and touches no abort controller. Two
    rapid invocations for product 7 send one POST, with the first request
    id, and its answer completes the creation once. *)
Theorem project_creation_single_flight (evs : list ProjectCreator.Event) :
  let st := ProjectCreator.run evs ProjectCreator.initial in
  (ProjectCreator.in_flight st <= 1)%nat
  /\ (forall rid, ProjectCreator.in_flight st = 1%nat ->
        ProjectCreator.pending (ProjectCreator.step (ProjectCreator.Invoke rid) st)
        = ProjectCreator.pending st
        /\ ProjectCreator.outbox (ProjectCreator.step (ProjectCreator.Invoke rid) st)
           = ProjectCreator.outbox st
        /\ ProjectCreator.controllers (ProjectCreator.step (ProjectCreator.Invoke rid) st)
           = ProjectCreator.controllers st)
  /\ (let done := ProjectCreator.run two_clicks_answered ProjectCreator.initial in
      ProjectCreator.outbox (ProjectCreator.run two_clicks ProjectCreator.initial)
      = [ProjectCreator.PostCreateProject (VNum 7) "r1" 0]
      /\ ProjectCreator.outbox done
         = [ProjectCreator.PostCreateProject (VNum 7) "r1" 0;
            ProjectCreator.GetExistingProjects]
      /\ ProjectCreator.success done = ProjectCreator.created_message "Widget QC"
      /\ ProjectCreator.products done = [widget_row]
      /\ ProjectCreator.pending done = []
      /\ ProjectCreator.loading done = false).
Proof.
  intros st.
  pose proof (run_settled evs ProjectCreator.initial initial_settled) as Hst.
  fold st in Hst. split; [| split].
  - destruct Hst as [Hn _]. rewrite Hn.
    destruct (ProjectCreator.isCreatingRef st); lia.
  - intros rid Hone. now apply invoke_ignored.
  - vm_compute. repeat split.
Qed.

(** C5 run on product 7: the second invocation while the first is pending. *)
Lemma project_creation_single_flight_witness :
  let st := ProjectCreator.run [ProjectCreator.Select "7"; ProjectCreator.Invoke "r1"]
              ProjectCreator.initial in
  ProjectCreator.pending (ProjectCreator.step (ProjectCreator.Invoke "r2") st)
  = ProjectCreator.pending st
  /\ ProjectCreator.outbox (ProjectCreator.step (ProjectCreator.Invoke "r2") st)
     = ProjectCreator.outbox st
  /\ ProjectCreator.controllers (ProjectCreator.step (ProjectCreator.Invoke "r2") st)
     = ProjectCreator.controllers st.
Proof.
  apply (project_creation_single_flight
           [ProjectCreator.Select "7"; ProjectCreator.Invoke "r1"]).
  reflexivity.
Defined.

(** C5 as stated fails: the second of two rapid invocations does not cancel
    the first. It is turned away by the guard on [isCreatingRef] before the
    line that aborts, so the one controller is never aborted, the first
    request stays parked, and only a console line is added. *)
Lemma second_click_counterexample :
  let st := ProjectCreator.run two_clicks ProjectCreator.initial in
  ProjectCreator.controllers st = [false]
  /\ ProjectCreator.pending st = [ProjectCreator.AwaitCreate 0 "r1"]
  /\ ProjectCreator.outbox st = [ProjectCreator.PostCreateProject (VNum 7) "r1" 0]
  /\ last (ProjectCreator.console st) = Some "Request already in progress, skipping...".
Proof. vm_compute. repeat split. Qed.
